(** * azure_rm_keyvaultsecret: reconciliation of a Key Vault secret

    Shallow embedding of [plugins/modules/azure_rm_keyvaultsecret.py]:
    the credential resolver [get_keyvault_client] (with its nested
    [auth_callback]) and the reconciler [exec_module] with its three
    helpers [get_secret], [create_update_secret] and [delete_secret].

    The Azure SDK (KeyVaultClient, MSIAuthentication, get_cli_profile,
    ServicePrincipalCredentials, KeyVaultId) and [dateutil.parser] are
    external collaborators: they enter as parameters, and an in-memory vault
    instantiates them wherever a statement is evaluated on concrete data. *)

From Stdlib Require Import ZArith Ascii.
From stdpp Require Import gmap strings list fin_maps.

Local Open Scope string_scope.
Local Open Scope Z_scope.

(** ** Python values and exceptions *)

(** A Python dict with string keys and string values: the [results] dict of
    [exec_module], the tag set. *)
Abbreviation dict := (gmap string string).

(** The exceptions that can travel through the module. *)
Inductive exn :=
| KeyVaultErrorException (status : Z)
    (* azure.keyvault: the service answered with a status other than 200 *)
| TypeError (msg : string)
    (* subscript or item assignment on None *)
| KeyError (key : string)
    (* dict indexed at a key it does not hold *)
| ValueError (msg : string)
    (* dateutil.parser.parse on a string it cannot read *)
| FailJson (msg : string)
    (* self.fail(msg): the module exits with a failure message *)
| SdkError (msg : string).
    (* any other exception raised inside the SDK *)

Inductive res (A : Type) :=
| Ret (a : A)
| Raise (e : exn).
Arguments Ret {A} a.
Arguments Raise {A} e.

(** HTTP status of a missing secret. *)
Definition NOT_FOUND : Z := 404.
Definition FORBIDDEN : Z := 403.

(** Truth value of an optional string: None and the empty string are falsy. *)
Definition truthy (v : option string) : bool :=
  match v with
  | Some s => negb (String.eqb s "")
  | None => false
  end.

(** [d[k]] on a value that may be None. *)
Definition getitem (d : option dict) (k : string) : res string :=
  match d with
  | None => Raise (TypeError "'NoneType' object is not subscriptable")
  | Some m =>
      match m !! k with
      | Some v => Ret v
      | None => Raise (KeyError k)
      end
  end.

(** [d[k] = v] on a value that may be None. *)
Definition setitem (d : option dict) (k v : string) : res (option dict) :=
  match d with
  | None => Raise (TypeError "'NoneType' object does not support item assignment")
  | Some m => Ret (Some (<[k := v]> m))
  end.

(** ** Module parameters *)

(** [state=dict(type='str', default='present', choices=['present', 'absent'])] *)
Inductive presence := present | absent.

(** The attributes [exec_module] copies from [kwargs]: the keys of
    [module_arg_spec] and ['tags']. *)
Record Params := {
  secret_name : string;
  secret_value : option string;
  secret_valid_from : option string;
  secret_expiry : option string;
  keyvault_uri : string;
  state : presence;
  content_type : option string;
  tags : option dict
}.

(** [self.results]: [dict(changed=..., state=...)]. *)
Record Results := {
  changed : bool;
  result_state : option dict
}.

(** ** The SDK surface *)

Record SecretBundle := {
  bundle_id : string;
  bundle_value : string
}.

Section Reconciler.

(** [datetime.datetime], as produced by [dateutil.parser.parse]. *)
Context {datetime : Type}.

(** The value of [valid_from] / [expiry] after lines 173-179: None, a string
    left as it was, or a parsed timestamp. *)
Inductive date_arg :=
| DNone
| DStr (s : string)
| DDate (d : datetime).

(** [SecretAttributes(expires=expiry, not_before=valid_from)] *)
Record SecretAttributes := {
  expires : date_arg;
  not_before : date_arg
}.

(** The remote calls a run can issue, in the order issued. *)
Inductive call :=
| GetSecret (uri name version : string)
| SetSecret (uri name : string) (value : option string) (tgs : option dict)
            (ctype : option string) (attrs : SecretAttributes)
| DeleteSecret (uri name : string).

Definition is_write (c : call) : bool :=
  match c with
  | GetSecret _ _ _ => false
  | SetSecret _ _ _ _ _ _ | DeleteSecret _ _ => true
  end.

(** The state of the remote service. *)
Context {W : Type}.

(** [self.client]: a read observes the remote state, the two writes may
    change it. A read answers with a bundle, with a falsy bundle (None), or
    raises. *)
Record KeyVaultClient := {
  sdk_get_secret : string -> string -> string -> W -> res (option SecretBundle);
  sdk_set_secret : string -> string -> option string -> option dict ->
                   option string -> SecretAttributes -> W -> res SecretBundle * W;
  sdk_delete_secret : string -> string -> W -> res SecretBundle * W
}.

Variable client : KeyVaultClient.

(** [KeyVaultId.parse_secret_id(x).id] *)
Variable parse_secret_id : string -> string.

(** [dateutil.parser.parse]; None when it raises. *)
Variable dateutil_parse : string -> option datetime.

(** *** State and error monad: remote state and the log of calls *)

Record St := {
  world : W;
  calls : list call
}.

Definition M (A : Type) : Type := St -> res A * St.

Definition ret {A} (a : A) : M A := fun s => (Ret a, s).
Definition raise {A} (e : exn) : M A := fun s => (Raise e, s).
Definition bind {A B} (m : M A) (k : A -> M B) : M B :=
  fun s => match m s with
           | (Ret a, s') => k a s'
           | (Raise e, s') => (Raise e, s')
           end.
Definition lift {A} (r : res A) : M A := fun s => (r, s).

(** [try: body except <the exceptions h accepts>: handler] *)
Definition try_except {A} (body : M A) (h : exn -> option (M A)) : M A :=
  fun s => match body s with
           | (Ret a, s') => (Ret a, s')
           | (Raise e, s') =>
               match h e with
               | Some handler => handler s'
               | None => (Raise e, s')
               end
           end.

Notation "x <- m ;; k" := (bind m (fun x => k))
  (at level 100, m at next level, right associativity).

Definition log_call (c : call) : M unit :=
  fun s => (Ret tt, {| world := world s; calls := calls s ++ [c] |}).

Definition client_get_secret (uri name version : string) : M (option SecretBundle) :=
  _ <- log_call (GetSecret uri name version) ;;
  fun s => (sdk_get_secret client uri name version (world s), s).

Definition client_set_secret (uri name : string) (value : option string)
    (tgs : option dict) (ctype : option string) (attrs : SecretAttributes)
    : M SecretBundle :=
  _ <- log_call (SetSecret uri name value tgs ctype attrs) ;;
  fun s => let '(r, w') := sdk_set_secret client uri name value tgs ctype attrs (world s) in
           (r, {| world := w'; calls := calls s |}).

Definition client_delete_secret (uri name : string) : M SecretBundle :=
  _ <- log_call (DeleteSecret uri name) ;;
  fun s => let '(r, w') := sdk_delete_secret client uri name (world s) in
           (r, {| world := w'; calls := calls s |}).

(** *** The three helpers *)

Section Run.

Variable self : Params.
Variable check_mode : bool.

(** [get_secret(self, name, version='')] *)
Definition get_secret (name : string) (version : string) : M (option dict) :=
  secret_bundle <- client_get_secret (keyvault_uri self) name version ;;
  match secret_bundle with
  | Some b =>
      let secret_id := parse_secret_id (bundle_id b) in
      ret (Some (<["secret_id" := secret_id]>
                   (<["secret_value" := bundle_value b]> (∅ : dict))))
  | None => ret None
  end.

(** [create_update_secret(self, name, secret, tags, content_type, valid_from, expiry)] *)
Definition create_update_secret (name : string) (secret : option string)
    (tgs : option dict) (ctype : option string) (valid_from expiry : date_arg)
    : M string :=
  let secret_attributes := {| expires := expiry; not_before := valid_from |} in
  secret_bundle <- client_set_secret (keyvault_uri self) name secret tgs ctype
                     secret_attributes ;;
  ret (parse_secret_id (bundle_id secret_bundle)).

(** [delete_secret(self, name)] *)
Definition delete_secret (name : string) : M string :=
  deleted_secret <- client_delete_secret (keyvault_uri self) name ;;
  ret (parse_secret_id (bundle_id deleted_secret)).

(** *** exec_module *)

(** Lines 153-168: [results], [changed] after the try/except. *)
Definition read_phase : M (option dict * bool) :=
  let results0 : option dict := Some ∅ in
  let changed0 := false in
  try_except
    (results <- get_secret (secret_name self) "" ;;
     match state self with
     | absent => ret (results, true)
     | present =>
         if truthy (secret_value self) then
           v <- lift (getitem results "secret_value") ;;
           if bool_decide (Some v = secret_value self)
           then ret (results, changed0)
           else ret (results, true)
         else ret (results, changed0)
     end)
    (fun e => match e with
              | KeyVaultErrorException _ =>
                  Some (match state self with
                        | present => ret (results0, true)
                        | absent => ret (results0, changed0)
                        end)
              | _ => None
              end).

(** Lines 173-175 and 177-179:
    [if isinstance(v, str) and len(v) > 0: v = dateutil.parser.parse(v)] *)
Definition parse_date (v : option string) : M date_arg :=
  match v with
  | None => ret DNone
  | Some s =>
      if (0 <? Z.of_nat (String.length s))
      then match dateutil_parse s with
           | Some d => ret (DDate d)
           | None => raise (ValueError s)
           end
      else ret (DStr s)
  end.

(** Lines 181-196. [self.results['state']] and [results] are one object, so
    one variable carries both. *)
Definition write_phase (results : option dict) (chg : bool)
    (valid_from expiry : date_arg) : M (option dict) :=
  if negb check_mode then
    match state self, chg with
    | present, true =>
        sid <- create_update_secret (secret_name self) (secret_value self)
                 (tags self) (content_type self) valid_from expiry ;;
        results <- lift (setitem results "secret_id" sid) ;;
        lift (setitem results "status" "Created")
    | absent, true =>
        sid <- delete_secret (secret_name self) ;;
        results <- lift (setitem results "secret_id" sid) ;;
        lift (setitem results "status" "Deleted")
    | _, _ => ret results
    end
  else
    match state self, chg with
    | present, true => lift (setitem results "status" "Created")
    | absent, true => lift (setitem results "status" "Deleted")
    | _, _ => ret results
    end.

(** [exec_module(self, **kwargs)]. Line 151 builds [self.client] with
    [get_keyvault_client], which hands back a client on every path; the
    client it stands for is the parameter [client]. *)
Definition exec_module : M Results :=
  rc <- read_phase ;;
  let '(results, chg) := rc in
  valid_from <- parse_date (secret_valid_from self) ;;
  expiry <- parse_date (secret_expiry self) ;;
  st <- write_phase results chg valid_from expiry ;;
  ret {| changed := chg; result_state := st |}.

End Run.

(** A run starts on a remote state with an empty log of calls. *)
Definition start (w : W) : St := {| world := w; calls := [] |}.

Definition no_write (cs : list call) : Prop :=
  forallb (fun c => negb (is_write c)) cs = true.

End Reconciler.

Arguments date_arg : clear implicits.
Arguments SecretAttributes : clear implicits.
Arguments call : clear implicits.
Arguments KeyVaultClient : clear implicits.
Arguments St : clear implicits.

(** ** An in-memory vault

    The remote service as a finite map from (vault URI, secret name) to the
    stored value. A read of a missing secret is answered with status 404;
    a secret's identifier is [<vaultUri>secrets/<name>]. *)
Module MemVault.

Abbreviation vault := (gmap (string * string) string).

Definition secret_url (uri name : string) : string :=
  uri +:+ "secrets/" +:+ name.

Definition bundle (uri name v : string) : SecretBundle :=
  {| bundle_id := secret_url uri name; bundle_value := v |}.

Definition mem_get (uri name version : string) (w : vault)
    : res (option SecretBundle) :=
  match w !! (uri, name) with
  | Some v => Ret (Some (bundle uri name v))
  | None => Raise (KeyVaultErrorException NOT_FOUND)
  end.

Definition mem_set (uri name : string) (value : option string)
    (tgs : option dict) (ctype : option string) (attrs : SecretAttributes Z)
    (w : vault) : res SecretBundle * vault :=
  match value with
  | Some v => (Ret (bundle uri name v), <[(uri, name) := v]> w)
  | None => (Raise (SdkError "Parameter 'value' can not be None."), w)
  end.

Definition mem_delete (uri name : string) (w : vault)
    : res SecretBundle * vault :=
  match w !! (uri, name) with
  | Some v => (Ret (bundle uri name v), delete (uri, name) w)
  | None => (Raise (KeyVaultErrorException NOT_FOUND), w)
  end.

Definition mem_client : KeyVaultClient Z vault :=
  {| sdk_get_secret := mem_get;
     sdk_set_secret := mem_set;
     sdk_delete_secret := mem_delete |}.

(** A vault whose every answer is 403 Forbidden: the caller's principal has
    no permission on secrets. *)
Definition forbidden_client : KeyVaultClient Z vault :=
  {| sdk_get_secret := fun _ _ _ _ => Raise (KeyVaultErrorException FORBIDDEN);
     sdk_set_secret := fun _ _ _ _ _ _ w => (Raise (KeyVaultErrorException FORBIDDEN), w);
     sdk_delete_secret := fun _ _ w => (Raise (KeyVaultErrorException FORBIDDEN), w) |}.

(** Stand-in for the date parser: a string of decimal digits is read as a
    timestamp in seconds, anything else is rejected. *)
Fixpoint digits_value (s : string) (acc : Z) : option Z :=
  match s with
  | EmptyString => Some acc
  | String c rest =>
      let n := Z.of_nat (Ascii.nat_of_ascii c) in
      if (48 <=? n) && (n <=? 57)
      then digits_value rest (10 * acc + (n - 48))
      else None
  end.

Definition digits_parse (s : string) : option Z :=
  match s with
  | EmptyString => None
  | _ => digits_value s 0
  end.

Definition run (p : Params) (check_mode : bool) (w : vault)
    : res Results * St Z vault :=
  exec_module mem_client id digits_parse p check_mode (start w).

Definition contoso : string := "https://contoso.vault.azure.net/".

(** The first example of the module's EXAMPLES block. *)
Definition create_MySecret : Params :=
  {| secret_name := "MySecret";
     secret_value := Some "My_Pass_Sec";
     secret_valid_from := None;
     secret_expiry := None;
     keyvault_uri := contoso;
     state := present;
     content_type := None;
     tags := Some (<["testing" := "testing"]> (<["delete" := "never"]> ∅)) |}.

(** The second example of the EXAMPLES block. *)
Definition delete_MySecret : Params :=
  {| secret_name := "MySecret";
     secret_value := None;
     secret_valid_from := None;
     secret_expiry := None;
     keyvault_uri := contoso;
     state := absent;
     content_type := None;
     tags := None |}.

Definition with_MySecret (v : string) : vault := {[ (contoso, "MySecret") := v ]}.

(** Present, with the empty string as the value. *)
Definition blank_MySecret : Params :=
  {| secret_name := "MySecret";
     secret_value := Some "";
     secret_valid_from := None;
     secret_expiry := None;
     keyvault_uri := contoso;
     state := present;
     content_type := None;
     tags := None |}.

(** The delete of the EXAMPLES block, with an expiry that is not a date. *)
Definition delete_with_bad_expiry : Params :=
  {| secret_name := "MySecret";
     secret_value := None;
     secret_valid_from := None;
     secret_expiry := Some "next week";
     keyvault_uri := contoso;
     state := absent;
     content_type := None;
     tags := None |}.

End MemVault.

(** ** Credential resolver *)

(** [s.split('.', 1).pop()]: what follows the first dot, or [s] itself when
    it has no dot. *)
Fixpoint after_first_dot (s : string) : option string :=
  match s with
  | EmptyString => None
  | String c rest =>
      if Ascii.eqb c "."%char then Some rest else after_first_dot rest
  end.

Definition split_dot_pop (s : string) : string :=
  match after_first_dot s with
  | Some rest => rest
  | None => s
  end.

(** What [get_keyvault_client] reads from [self]: [module.params['auth_source']],
    the [credentials] dict (a value is a string or None), the cloud's
    [suffixes.keyvault_dns] and the cloud environment handed on to the SDK. *)
Record AuthSelf := {
  auth_source : string;
  credentials : gmap string (option string);
  keyvault_dns : string;
  cloud_environment : string
}.

(** The keyword arguments of [ServicePrincipalCredentials(...)]. *)
Record ServicePrincipalArgs := {
  sp_client_id : string;
  sp_secret : string;
  sp_tenant : option string;
  sp_cloud_environment : string;
  sp_resource : string
}.

(** [authcredential.token] *)
Record Token := {
  token_type : string;
  access_token : string
}.

(** What the resolver does that can be seen from outside, in order. *)
Inductive event :=
| Log (msg : string)                       (* self.log(msg) *)
| CallMSI (resource : string)              (* MSIAuthentication(resource=...) *)
| CallCliProfile                           (* get_cli_profile() *)
| CallCliLogin (subscription_id : option string) (resource : string).
                                           (* profile.get_login_credentials(...) *)

Definition FAIL_MSG : string :=
  "Please specify client_id, secret and tenant to access azure Key Vault.".

(** Modelled from the spec: [self.fail] is a method of [AzureRMModuleBase] in
    module_utils/azure_rm_common.py, which is not among the sources. The spec
    has incomplete explicit credentials fail the resolution, fatally to the
    invocation and with a message for the user, so the call ends the callback
    with its message. *)
Definition fail {A : Type} (msg : string) : res A := Raise (FailJson msg).

Section Resolver.

(** A credentials object of the SDK, and a loaded CLI profile. *)
Context {Cred Profile : Type}.

(** The SDK calls; None stands for a raised [Exception]. *)
Variable MSIAuthentication : string -> option Cred.
Variable get_cli_profile : option Profile.
Variable get_login_credentials : Profile -> option string -> string -> option Cred.
Variable ServicePrincipalCredentials_token : ServicePrincipalArgs -> res Token.

(** The client handed back: built on a credentials object, or on
    [KeyVaultAuthentication(auth_callback)]. *)
Inductive client_handle :=
| ClientOf (c : Cred)
| ClientCallback (cb : string -> string -> string -> res (string * string)).

Variable self : AuthSelf.

Definition kv_url : string := split_dot_pop (keyvault_dns self).

Definition kv_resource : string := "https://" +:+ kv_url.

(** Lines 222-234 of [auth_callback]: the check on client id and secret, the
    tenant default, the arguments of the credential. *)
Definition auth_callback_args : res ServicePrincipalArgs :=
  match credentials self !! "client_id" with
  | None => Raise (KeyError "client_id")
  | Some None => fail FAIL_MSG
  | Some (Some client_id) =>
      match credentials self !! "secret" with
      | None => Raise (KeyError "secret")
      | Some None => fail FAIL_MSG
      | Some (Some secret) =>
          let tenant : option string :=
            match credentials self !! "tenant" with
            | Some t => t
            | None => None
            end in
          match credentials self !! "tenant" with
          | None => Raise (KeyError "tenant")
          | Some t =>
              let tenant := if negb (truthy t) then Some "common" else tenant in
              Ret {| sp_client_id := client_id;
                     sp_secret := secret;
                     sp_tenant := tenant;
                     sp_cloud_environment := cloud_environment self;
                     sp_resource := kv_resource |}
          end
      end
  end.

(** [auth_callback(server, resource, scope)] *)
Definition auth_callback (server resource scope : string) : res (string * string) :=
  match auth_callback_args with
  | Raise e => Raise e
  | Ret args =>
      match ServicePrincipalCredentials_token args with
      | Raise e => Raise e
      | Ret token => Ret (token_type token, access_token token)
      end
  end.

(** [get_keyvault_client(self)]: the client and the events on the way. *)
Definition get_keyvault_client : client_handle * list event :=
  let fallback (evs : list event) :=
    (ClientCallback auth_callback, evs) in
  if String.eqb (auth_source self) "msi" then
    let evs := [Log "Get KeyVaultClient from MSI"; CallMSI kv_resource] in
    match MSIAuthentication kv_resource with
    | Some credentials => (ClientOf credentials, evs)
    | None => fallback (evs ++ [Log "Get KeyVaultClient from service principal"])%list
    end
  else if String.eqb (auth_source self) "auto" || String.eqb (auth_source self) "cli" then
    let evs := [CallCliProfile] in
    match get_cli_profile with
    | None => fallback (evs ++ [Log "Get KeyVaultClient from service principal"])%list
    | Some profile =>
        match credentials self !! "subscription_id" with
        | None => (* KeyError, caught by [except Exception] *)
            fallback (evs ++ [Log "Get KeyVaultClient from service principal"])%list
        | Some subscription_id =>
            let evs := (evs ++ [CallCliLogin subscription_id kv_resource])%list in
            match get_login_credentials profile subscription_id kv_resource with
            | Some credentials => (ClientOf credentials, evs)
            | None => fallback (evs ++ [Log "Get KeyVaultClient from service principal"])%list
            end
        end
    end
  else fallback [].

Definition cli_attempted (evs : list event) : bool :=
  existsb (fun e => match e with
                    | CallCliProfile | CallCliLogin _ _ => true
                    | _ => false
                    end) evs.

End Resolver.

Arguments client_handle : clear implicits.

(** A host on which the managed identity endpoint does not answer while a
    CLI login session is at hand. *)
Module Host.

Definition msi_down (resource : string) : option string := None.

Definition cli_profile : option unit := Some tt.

Definition cli_login (profile : unit) (subscription_id : option string)
    (resource : string) : option string :=
  Some "cli-session".

Definition sp_token (args : ServicePrincipalArgs) : res Token :=
  Ret {| token_type := "Bearer";
         access_token := sp_client_id args +:+ "@" +:+ default "" (sp_tenant args) |}.

Definition msi_self : AuthSelf :=
  {| auth_source := "msi";
     credentials :=
       <["client_id" := Some "app-id"]>
         (<["secret" := Some "app-secret"]>
            (<["tenant" := None]>
               (<["subscription_id" := Some "sub-1"]> ∅)));
     keyvault_dns := ".vault.azure.net";
     cloud_environment := "AzureCloud" |}.

Definition resolve (self : AuthSelf) : client_handle string * list event :=
  get_keyvault_client msi_down cli_profile cli_login sp_token self.

End Host.

(** ** Vocabulary of the statements *)

(** What the read of the current secret reports: the secret is absent
    (status 404) or it is found with a value. *)
Inductive read_outcome :=
| ReadNotFound
| ReadFound (value : string).

(** The rule for [changed] in the words of the reconciler's contract: absent
    and wanted, found and unwanted, or found, wanted and of another value. *)
Definition spec_changed (o : read_outcome) (p : Params) : bool :=
  match o, state p with
  | ReadNotFound, present => true
  | ReadNotFound, absent => false
  | ReadFound _, absent => true
  | ReadFound v, present => negb (bool_decide (Some v = secret_value p))
  end.

(** The status a run announces for a change. *)
Definition prospective_label (st : presence) : string :=
  match st with
  | present => "Created"
  | absent => "Deleted"
  end.

Section Vocabulary.

Context {datetime W : Type}.
Variable client : KeyVaultClient datetime W.
Variable parse_secret_id : string -> string.
Variable dateutil_parse : string -> option datetime.

(** The dict [get_secret] builds from a bundle. *)
Definition record_of (b : SecretBundle) : dict :=
  <["secret_id" := parse_secret_id (bundle_id b)]>
    (<["secret_value" := bundle_value b]> ∅).

Definition read_reports (p : Params) (w : W) (o : read_outcome) : Prop :=
  match o with
  | ReadNotFound =>
      sdk_get_secret client (keyvault_uri p) (secret_name p) "" w
      = Raise (KeyVaultErrorException NOT_FOUND)
  | ReadFound v =>
      exists b, sdk_get_secret client (keyvault_uri p) (secret_name p) "" w
                = Ret (Some b) /\ bundle_value b = v
  end.

(** The one read a run issues. *)
Definition read_call (p : Params) : call datetime :=
  GetSecret (keyvault_uri p) (secret_name p) "".

(** The state after the read: same remote state, the read logged. *)
Definition after_read (p : Params) (s : St datetime W) : St datetime W :=
  {| world := world s; calls := (calls s ++ [read_call p])%list |}.

(** A date parameter that lines 173-179 get through: unset, empty, or read
    by the parser. *)
Definition date_ok (v : option string) : bool :=
  match v with
  | None => true
  | Some s =>
      if (0 <? Z.of_nat (String.length s))
      then bool_decide (is_Some (dateutil_parse s))
      else true
  end.

Definition dates_ok (p : Params) : bool :=
  date_ok (secret_valid_from p) && date_ok (secret_expiry p).

(** What a well-behaved store promises: a secret that was set is found with
    the value set, a secret that was deleted is reported missing. *)
Definition store_laws : Prop :=
  (forall uri name v tgs ct attrs w b w',
      sdk_set_secret client uri name v tgs ct attrs w = (Ret b, w') ->
      exists b', sdk_get_secret client uri name "" w' = Ret (Some b')
                 /\ forall s, v = Some s -> bundle_value b' = s)
  /\ (forall uri name w b w',
         sdk_delete_secret client uri name w = (Ret b, w') ->
         exists st, sdk_get_secret client uri name "" w'
                    = Raise (KeyVaultErrorException st)).

End Vocabulary.

(** Whether the managed identity was asked for a token. *)
Definition msi_attempted (evs : list event) : bool :=
  existsb (fun e => match e with
                    | CallMSI _ => true
                    | _ => false
                    end) evs.

(** Whether a string holds a dot. *)
Fixpoint has_dot (s : string) : bool :=
  match s with
  | EmptyString => false
  | String c rest => Ascii.eqb c "."%char || has_dot rest
  end.

(** The set-secret call of a run, with the dates as parsed. *)
Definition set_call {datetime : Type} (p : Params)
    (valid_from expiry : date_arg datetime) : call datetime :=
  SetSecret (keyvault_uri p) (secret_name p) (secret_value p) (tags p)
    (content_type p) {| expires := expiry; not_before := valid_from |}.

(** The delete-secret call of a run. *)
Definition delete_call {datetime : Type} (p : Params) : call datetime :=
  DeleteSecret (keyvault_uri p) (secret_name p).

(** Collaborators that misbehave, for runs on concrete data. *)
Module Faults.

(** A vault that cannot be reached: every call raises an error that is not
    a [KeyVaultErrorException]. *)
Definition offline_client : KeyVaultClient Z MemVault.vault :=
  {| sdk_get_secret := fun _ _ _ _ => Raise (SdkError "connection refused");
     sdk_set_secret := fun _ _ _ _ _ _ w => (Raise (SdkError "connection refused"), w);
     sdk_delete_secret := fun _ _ w => (Raise (SdkError "connection refused"), w) |}.

(** A client whose read answers with a falsy bundle; its writes are those of
    the in-memory vault. *)
Definition falsy_client : KeyVaultClient Z MemVault.vault :=
  {| sdk_get_secret := fun _ _ _ _ => Ret None;
     sdk_set_secret := MemVault.mem_set;
     sdk_delete_secret := MemVault.mem_delete |}.

(** A vault that serves reads and refuses writes with 403. *)
Definition read_only_client : KeyVaultClient Z MemVault.vault :=
  {| sdk_get_secret := MemVault.mem_get;
     sdk_set_secret := fun _ _ _ _ _ _ w => (Raise (KeyVaultErrorException FORBIDDEN), w);
     sdk_delete_secret := fun _ _ w => (Raise (KeyVaultErrorException FORBIDDEN), w) |}.

(** The host of [Host], asked for the CLI session. *)
Definition cli_self : AuthSelf :=
  {| auth_source := "cli";
     credentials := credentials Host.msi_self;
     keyvault_dns := ".vault.azure.net";
     cloud_environment := "AzureCloud" |}.

(** The same, with a [credentials] dict that has no subscription. *)
Definition cli_self_no_subscription : AuthSelf :=
  {| auth_source := "auto";
     credentials := <["client_id" := Some "app-id"]> ∅;
     keyvault_dns := ".vault.azure.net";
     cloud_environment := "AzureCloud" |}.







End Faults.

(** * Facts *)

Section ReconcilerFacts.

Context {datetime W : Type}.
Variable client : KeyVaultClient datetime W.
Variable parse_secret_id : string -> string.
Variable dateutil_parse : string -> option datetime.

Local Abbreviation read := (read_phase client parse_secret_id).
Local Abbreviation exec := (exec_module client parse_secret_id dateutil_parse).
Local Notation "x <- m ;; k" := (bind m (fun x => k))
  (at level 100, m at next level, right associativity).
Local Abbreviation sdk_read p w :=
  (sdk_get_secret client (keyvault_uri p) (secret_name p) "" w).

Lemma record_of_value b : record_of parse_secret_id b !! "secret_value" = Some (bundle_value b).
Proof.
  unfold record_of. rewrite lookup_insert_ne by done. apply lookup_insert_eq.
Qed.

Ltac run_read :=
  unfold read_phase, try_except, get_secret, client_get_secret,
    bind, log_call, ret, lift, after_read, read_call; simpl.

(** The read phase on a found secret. *)
Lemma read_phase_found p s b :
  sdk_read p (world s) = Ret (Some b) ->
  read p s =
  (Ret (Some (record_of parse_secret_id b),
        match state p with
        | absent => true
        | present => truthy (secret_value p)
                     && negb (bool_decide (Some (bundle_value b) = secret_value p))
        end),
   after_read p s).
Proof.
  intros Hget. run_read. rewrite Hget. fold (record_of parse_secret_id b).
  destruct (state p); [|reflexivity].
  destruct (truthy (secret_value p)); [|reflexivity].
  unfold getitem. rewrite record_of_value. simpl.
  destruct (bool_decide _); reflexivity.
Qed.

(** The read phase when the SDK raises [KeyVaultErrorException]. *)
Lemma read_phase_keyvault_error p s status :
  sdk_read p (world s) = Raise (KeyVaultErrorException status) ->
  read p s =
  (Ret (Some ∅, match state p with present => true | absent => false end),
   after_read p s).
Proof.
  intros Hget. run_read. rewrite Hget. destruct (state p); reflexivity.
Qed.

(** The read phase when the SDK raises anything else. *)
Lemma read_phase_other_error p s e :
  sdk_read p (world s) = Raise e ->
  (forall status, e <> KeyVaultErrorException status) ->
  read p s = (Raise e, after_read p s).
Proof.
  intros Hget Hne. run_read. rewrite Hget.
  destruct e; try reflexivity. exfalso. eapply Hne. reflexivity.
Qed.

(** Whatever the read phase answers, it leaves the remote state alone and
    logs exactly the read. *)
Lemma read_phase_state p s : (read p s).2 = after_read p s.
Proof.
  run_read.
  destruct (sdk_read p (world s)) as [[b|]|e]; simpl.
  - destruct (state p); [|reflexivity].
    destruct (truthy (secret_value p)); [|reflexivity].
    unfold getitem.
    rewrite lookup_insert_ne by done. rewrite lookup_insert_eq. simpl.
    destruct (bool_decide _); reflexivity.
  - destruct (state p); [|reflexivity].
    destruct (truthy (secret_value p)); reflexivity.
  - destruct e; try reflexivity. destruct (state p); reflexivity.
Qed.

(** *** Date parsing and the write phase *)

Lemma parse_date_state v (s : St datetime W) : (parse_date dateutil_parse v s).2 = s.
Proof.
  unfold parse_date, ret, raise. repeat case_match; reflexivity.
Qed.

Lemma parse_date_ok v (s : St datetime W) :
  date_ok dateutil_parse v = true ->
  exists d, parse_date dateutil_parse v s = (Ret d, s).
Proof.
  unfold date_ok, parse_date, ret, raise. intros Hok.
  destruct v as [str|]; [|eauto].
  destruct (0 <? Z.of_nat (String.length str)); [|eauto].
  apply bool_decide_eq_true in Hok. destruct Hok as [d ->]. eauto.
Qed.

Lemma parse_date_unparsable str (s : St datetime W) :
  str <> "" -> dateutil_parse str = None ->
  parse_date dateutil_parse (Some str) s = (Raise (ValueError str), s).
Proof.
  intros Hne Hnone. unfold parse_date, raise.
  destruct str as [|c rest]; [done|]. simpl String.length.
  replace (0 <? Z.of_nat (S (String.length rest))) with true
    by (symmetry; apply Z.ltb_lt; lia).
  rewrite Hnone. reflexivity.
Qed.

Lemma write_phase_unchanged p cm results vf ex s :
  write_phase client parse_secret_id p cm results false vf ex s = (Ret results, s).
Proof.
  unfold write_phase, ret. destruct cm, (state p); reflexivity.
Qed.

Lemma write_phase_dry_state p results chg vf ex s :
  (write_phase client parse_secret_id p true results chg vf ex s).2 = s.
Proof.
  unfold write_phase, ret, lift. simpl. repeat case_match; reflexivity.
Qed.

(** A run, unfolded after its read phase. *)
Lemma exec_after_read p cm s results chg s1 :
  read p s = (Ret (results, chg), s1) ->
  exec p cm s =
  (valid_from <- parse_date dateutil_parse (secret_valid_from p) ;;
   expiry <- parse_date dateutil_parse (secret_expiry p) ;;
   st <- write_phase client parse_secret_id p cm results chg valid_from expiry ;;
   ret {| changed := chg; result_state := st |}) s1.
Proof.
  intros Hread. unfold exec_module at 1. unfold bind at 1. rewrite Hread.
  reflexivity.
Qed.

Lemma exec_read_raises p cm s e s1 :
  read p s = (Raise e, s1) -> exec p cm s = (Raise e, s1).
Proof.
  intros Hread. unfold exec_module, bind. rewrite Hread. reflexivity.
Qed.

(** The flag a run returns is the one its read phase computed. *)
Lemma exec_changed p cm s r s' :
  exec p cm s = (Ret r, s') ->
  exists results s1, read p s = (Ret (results, changed r), s1).
Proof.
  intros Hexec.
  destruct (read p s) as [[[results chg]|e] s1] eqn:Hread.
  - rewrite (exec_after_read _ _ _ _ _ _ Hread) in Hexec.
    exists results, s1. f_equal. f_equal. f_equal.
    unfold bind, ret in Hexec.
    repeat case_match; simplify_eq; reflexivity.
  - rewrite (exec_read_raises _ _ _ _ _ Hread) in Hexec. discriminate.
Qed.

(** In check mode a run ends in the state its read left. *)
Lemma exec_dry_state p s : (exec p true s).2 = after_read p s.
Proof.
  pose proof (read_phase_state p s) as Hst.
  destruct (read p s) as [[[results chg]|e] s1] eqn:Hread; simpl in Hst; subst s1.
  - rewrite (exec_after_read _ _ _ _ _ _ Hread). unfold bind, ret.
    pose proof (parse_date_state (secret_valid_from p) (after_read p s)) as H1.
    destruct (parse_date _ (secret_valid_from p) _) as [[vf|e1] s1]; simpl in H1; subst s1; [|reflexivity].
    pose proof (parse_date_state (secret_expiry p) (after_read p s)) as H2.
    destruct (parse_date _ (secret_expiry p) _) as [[ex|e2] s2]; simpl in H2; subst s2; [|reflexivity].
    pose proof (write_phase_dry_state p results chg vf ex (after_read p s)) as H3.
    destruct (write_phase _ _ _ _ _ _ _ _ _) as [[st|e3] s3]; simpl in H3; subst s3; reflexivity.
  - rewrite (exec_read_raises _ _ _ _ _ Hread). reflexivity.
Qed.

(** A run whose read phase computed [changed = False] issues nothing after
    the read, and returns the record read when the dates get through. *)
Lemma exec_no_change p cm s results s1 :
  read p s = (Ret (results, false), s1) ->
  (exec p cm s).2 = s1
  /\ (forall r, (exec p cm s).1 = Ret r ->
                r = {| changed := false; result_state := results |})
  /\ (dates_ok dateutil_parse p = true ->
      exec p cm s = (Ret {| changed := false; result_state := results |}, s1)).
Proof.
  intros Hread. rewrite (exec_after_read _ _ _ _ _ _ Hread).
  unfold bind, ret.
  pose proof (parse_date_state (secret_valid_from p) s1) as H1.
  pose proof (parse_date_ok (secret_valid_from p) s1) as O1.
  destruct (parse_date _ (secret_valid_from p) _) as [[vf|e1] t1];
    simpl in H1; subst t1.
  - pose proof (parse_date_state (secret_expiry p) s1) as H2.
    pose proof (parse_date_ok (secret_expiry p) s1) as O2.
    destruct (parse_date _ (secret_expiry p) _) as [[ex|e2] t2];
      simpl in H2; subst t2.
    + rewrite write_phase_unchanged. simpl. repeat split.
      intros r [= <-]. reflexivity.
    + simpl. repeat split; [discriminate|].
      unfold dates_ok. intros [_ Hok]%andb_true_iff.
      destruct (O2 Hok) as [d Hd]. discriminate.
  - simpl. repeat split; [discriminate|].
    unfold dates_ok. intros [Hok _]%andb_true_iff.
    destruct (O1 Hok) as [d Hd]. discriminate.
Qed.

(** C1 (amended). When the read reports the secret missing or found, the
    read phase computes a flag, every run that returns hands back that flag,
    and the flag is true exactly when: the secret is missing and wanted; or
    it is found and unwanted; or it is found, wanted, the wanted value is not
    empty and the fetched value differs from it. *)
Theorem changed_flag_rule p w o :
  read_reports client p w o ->
  exists results chg,
    read p (start w) = (Ret (results, chg), after_read p (start w))
    /\ (forall cm r s', exec p cm (start w) = (Ret r, s') -> changed r = chg)
    /\ (chg = true <->
          (o = ReadNotFound /\ state p = present)
          \/ (exists v, o = ReadFound v /\ state p = absent)
          \/ (exists v sv, o = ReadFound v /\ state p = present
                           /\ secret_value p = Some sv /\ sv <> "" /\ v <> sv)).
Proof.
  intros Hobs.
  assert (Hflag : forall results chg,
             read p (start w) = (Ret (results, chg), after_read p (start w)) ->
             forall cm r s', exec p cm (start w) = (Ret r, s') -> changed r = chg).
  { intros results chg Hread cm r s' Hexec.
    destruct (exec_changed _ _ _ _ _ Hexec) as (results' & s1 & Hread').
    rewrite Hread in Hread'. congruence. }
  destruct o as [|v]; simpl in Hobs.
  - eexists _, _. split; [|split].
    + apply (read_phase_keyvault_error p (start w) _ Hobs).
    + apply (Hflag _ _ (read_phase_keyvault_error p (start w) _ Hobs)).
    + destruct (state p); split.
      * intros _. left. done.
      * done.
      * discriminate.
      * intros [[_ ?]|[(? & ? & _)|(? & ? & ? & _)]]; discriminate.
  - destruct Hobs as (b & Hget & <-).
    eexists _, _. split; [|split].
    + apply (read_phase_found p (start w) _ Hget).
    + apply (Hflag _ _ (read_phase_found p (start w) _ Hget)).
    + destruct (state p).
      * destruct (secret_value p) as [sv|] eqn:Hsv; simpl.
        -- destruct (String.eqb_spec sv "") as [->|Hne]; simpl.
           ++ split; [discriminate|].
              intros [[? _]|[(? & _ & ?)|(? & sv' & _ & _ & [= <-] & ? & _)]];
                done.
           ++ rewrite negb_true_iff, bool_decide_eq_false. split.
              ** intros Hd. right. right. exists (bundle_value b), sv.
                 repeat split; try done. congruence.
              ** intros [[? _]|[(? & _ & ?)|(v & sv' & [= <-] & _ & [= <-] & _ & Hd)]];
                   try done. congruence.
        -- split; [discriminate|].
           intros [[? _]|[(? & _ & ?)|(? & ? & _ & _ & ? & _)]]; done.
      * split; [|done]. intros _. right. left. eauto.
Qed.

(** C2. In check mode a run issues no write, whatever [changed] is: it ends
    on the remote state it started on with the read as its only call. When it
    returns with [changed] true, the state it returns carries the status
    "Created" for present and "Deleted" for absent; and it does return so
    whenever the read phase computed [changed] on a record and the dates get
    through. *)
Theorem dry_run_issues_no_write p w :
  let out := exec p true (start w) in
  world out.2 = w
  /\ calls out.2 = [read_call p]
  /\ no_write (calls out.2)
  /\ (forall r, out.1 = Ret r -> changed r = true ->
        exists d, result_state r = Some d
                  /\ d !! "status" = Some (prospective_label (state p)))
  /\ (forall d, (read p (start w)).1 = Ret (Some d, true) ->
        dates_ok dateutil_parse p = true ->
        out.1 = Ret {| changed := true;
                       result_state :=
                         Some (<["status" := prospective_label (state p)]> d) |}).
Proof.
  intros out. subst out. rewrite exec_dry_state.
  split; [reflexivity|]. split; [reflexivity|]. split; [reflexivity|].
  pose proof (read_phase_state p (start w)) as Hst.
  destruct (read p (start w)) as [[[results chg]|e] s1] eqn:Hread;
    simpl in Hst; subst s1.
  2:{ rewrite (exec_read_raises _ _ _ _ _ Hread). split; intros; discriminate. }
  rewrite (exec_after_read _ _ _ _ _ _ Hread). unfold bind, ret.
  pose proof (parse_date_state (secret_valid_from p) (after_read p (start w))) as H1.
  pose proof (parse_date_ok (secret_valid_from p) (after_read p (start w))) as O1.
  destruct (parse_date _ (secret_valid_from p) _) as [[vf|e1] t1];
    simpl in H1; subst t1.
  2:{ simpl. split; [intros; discriminate|].
      intros d _ [Hok _]%andb_true_iff. destruct (O1 Hok) as [? ?]. discriminate. }
  pose proof (parse_date_state (secret_expiry p) (after_read p (start w))) as H2.
  pose proof (parse_date_ok (secret_expiry p) (after_read p (start w))) as O2.
  destruct (parse_date _ (secret_expiry p) _) as [[ex|e2] t2];
    simpl in H2; subst t2.
  2:{ simpl. split; [intros; discriminate|].
      intros d _ [_ Hok]%andb_true_iff. destruct (O2 Hok) as [? ?]. discriminate. }
  unfold write_phase, lift, setitem. simpl.
  split.
  - intros r Hr Hchg.
    destruct (state p), chg, results as [d|]; simpl in Hr; simplify_eq;
      simpl in Hchg; try discriminate;
      (eexists; split; [reflexivity|apply lookup_insert_eq]).
  - intros d [= -> ->] _. destruct (state p); reflexivity.
Qed.

(** C5 (amended). The date strings are parsed on every run whose read phase
    completes, whatever [changed], the presence and the check mode are, and
    before any write: a non-empty [secret_valid_from] the parser rejects,
    or a non-empty [secret_expiry] it rejects after [secret_valid_from] got
    through, ends the run with the parser's error in the state the read
    left, so with no write issued. An unset or empty date string is passed
    on as it is, without error. *)
Theorem dates_parsed_on_every_run p cm w results chg s1 :
  read p (start w) = (Ret (results, chg), s1) ->
  (forall str, secret_valid_from p = Some str -> str <> "" ->
               dateutil_parse str = None ->
               exec p cm (start w) = (Raise (ValueError str), s1))
  /\ (forall str, date_ok dateutil_parse (secret_valid_from p) = true ->
                  secret_expiry p = Some str -> str <> "" ->
                  dateutil_parse str = None ->
                  exec p cm (start w) = (Raise (ValueError str), s1))
  /\ s1 = {| world := w; calls := [read_call p] |}
  /\ (forall s : St datetime W,
        parse_date dateutil_parse None s = (Ret DNone, s)
        /\ parse_date dateutil_parse (Some "") s = (Ret (DStr ""), s)).
Proof.
  intros Hread. repeat split.
  - intros str Hvf Hne Hnone. rewrite (exec_after_read _ _ _ _ _ _ Hread).
    unfold bind. rewrite Hvf, parse_date_unparsable by done. reflexivity.
  - intros str Hok Hex Hne Hnone. rewrite (exec_after_read _ _ _ _ _ _ Hread).
    unfold bind. destruct (parse_date_ok _ s1 Hok) as [d ->].
    rewrite Hex, parse_date_unparsable by done. reflexivity.
  - pose proof (read_phase_state p (start w)) as Hst. rewrite Hread in Hst.
    exact Hst.
Qed.

(** C8 (amended). Against a vault that reports no secret of that name, a
    run with presence absent issues no write and leaves the vault as it was,
    whatever else the parameters are; when its date strings are unset, empty
    or readable it returns [changed = False] with an empty state. *)
Theorem absent_on_missing_is_noop p cm w :
  state p = absent ->
  sdk_read p w = Raise (KeyVaultErrorException NOT_FOUND) ->
  (exec p cm (start w)).2 = {| world := w; calls := [read_call p] |}
  /\ (forall r, (exec p cm (start w)).1 = Ret r ->
                r = {| changed := false; result_state := Some ∅ |})
  /\ (dates_ok dateutil_parse p = true ->
      exec p cm (start w) =
      (Ret {| changed := false; result_state := Some ∅ |},
       {| world := w; calls := [read_call p] |})).
Proof.
  intros Habs Hget.
  pose proof (read_phase_keyvault_error p (start w) _ Hget) as Hread.
  rewrite Habs in Hread.
  exact (exec_no_change p cm _ _ _ Hread).
Qed.

(** C10. With state present and the empty string as [secret_value], against
    an existing secret whose value is not empty, the read phase computes
    [changed = False]; the run issues the read and nothing else, so no
    set-secret call, and returns the record read with [changed = False]
    when the dates get through. *)
Theorem empty_value_skips_diff p cm w b :
  state p = present ->
  secret_value p = Some "" ->
  sdk_read p w = Ret (Some b) ->
  bundle_value b <> "" ->
  read p (start w) = (Ret (Some (record_of parse_secret_id b), false),
                      {| world := w; calls := [read_call p] |})
  /\ (exec p cm (start w)).2 = {| world := w; calls := [read_call p] |}
  /\ (forall r, (exec p cm (start w)).1 = Ret r -> changed r = false)
  /\ (dates_ok dateutil_parse p = true ->
      (exec p cm (start w)).1 =
      Ret {| changed := false; result_state := Some (record_of parse_secret_id b) |}).
Proof.
  intros Hpres Hval Hget _.
  pose proof (read_phase_found p (start w) _ Hget) as Hread.
  rewrite Hpres, Hval in Hread. simpl in Hread.
  destruct (exec_no_change p cm _ _ _ Hread) as (Hst & Hret & Hok).
  split; [exact Hread|]. split; [exact Hst|]. split.
  - intros r Hr. rewrite (Hret r Hr). reflexivity.
  - intros Hd. rewrite (Hok Hd). reflexivity.
Qed.

(** *** Runs that write *)

Lemma parse_date_ret v (s s' : St datetime W) d :
  parse_date dateutil_parse v s = (Ret d, s') ->
  date_ok dateutil_parse v = true.
Proof.
  unfold parse_date, date_ok, ret, raise.
  destruct v as [str|]; [|done].
  destruct (0 <? Z.of_nat (String.length str)); [|done].
  destruct (dateutil_parse str) as [t|]; [|discriminate].
  intros _. apply bool_decide_eq_true. eauto.
Qed.

(** A run that returns: its read phase returned, its dates got through and
    its write phase returned. *)
Lemma exec_ret_inv p cm s r s' :
  exec p cm s = (Ret r, s') ->
  exists results chg vf ex st,
    read p s = (Ret (results, chg), after_read p s)
    /\ dates_ok dateutil_parse p = true
    /\ write_phase client parse_secret_id p cm results chg vf ex (after_read p s)
       = (Ret st, s')
    /\ r = {| changed := chg; result_state := st |}.
Proof.
  intros Hexec.
  pose proof (read_phase_state p s) as Hst.
  destruct (read p s) as [[[results chg]|e] s1] eqn:Hread; simpl in Hst; subst s1.
  2:{ rewrite (exec_read_raises _ _ _ _ _ Hread) in Hexec. discriminate. }
  rewrite (exec_after_read _ _ _ _ _ _ Hread) in Hexec.
  unfold bind, ret in Hexec.
  pose proof (parse_date_state (secret_valid_from p) (after_read p s)) as H1.
  destruct (parse_date _ (secret_valid_from p) _) as [[vf|e1] t1] eqn:P1;
    simpl in H1; subst t1; [|discriminate].
  pose proof (parse_date_state (secret_expiry p) (after_read p s)) as H2.
  destruct (parse_date _ (secret_expiry p) _) as [[ex|e2] t2] eqn:P2;
    simpl in H2; subst t2; [|discriminate].
  destruct (write_phase _ _ _ _ _ _ _ _ _) as [[st|e3] t3] eqn:Hw; [|discriminate].
  injection Hexec as <- <-.
  exists results, chg, vf, ex, st. repeat split; try done.
  unfold dates_ok. rewrite (parse_date_ret _ _ _ _ P1), (parse_date_ret _ _ _ _ P2).
  reflexivity.
Qed.

(** A write phase that creates went through a set-secret the service
    accepted, and ends on the remote state that call left. *)
Lemma write_phase_created p results vf ex s st s' :
  state p = present ->
  write_phase client parse_secret_id p false results true vf ex s = (Ret st, s') ->
  exists b,
    sdk_set_secret client (keyvault_uri p) (secret_name p) (secret_value p)
      (tags p) (content_type p) {| expires := ex; not_before := vf |} (world s)
    = (Ret b, world s').
Proof.
  intros Hst. unfold write_phase, create_update_secret, client_set_secret,
    bind, log_call, ret, lift. rewrite Hst. simpl.
  destruct (sdk_set_secret _ _ _ _ _ _ _ _) as [[b|e] w']; [|discriminate].
  intros Hw. exists b. f_equal.
  destruct (setitem results _ _) as [r1|]; [|discriminate]. simpl in Hw.
  destruct (setitem r1 _ _); simplify_eq. reflexivity.
Qed.

(** A write phase that deletes went through a delete-secret the service
    accepted, and ends on the remote state that call left. *)
Lemma write_phase_deleted p results vf ex s st s' :
  state p = absent ->
  write_phase client parse_secret_id p false results true vf ex s = (Ret st, s') ->
  exists b,
    sdk_delete_secret client (keyvault_uri p) (secret_name p) (world s)
    = (Ret b, world s').
Proof.
  intros Hst. unfold write_phase, delete_secret, client_delete_secret,
    bind, log_call, ret, lift. rewrite Hst. simpl.
  destruct (sdk_delete_secret _ _ _ _) as [[b|e] w']; [|discriminate].
  intros Hw. exists b. f_equal.
  destruct (setitem results _ _) as [r1|]; [|discriminate]. simpl in Hw.
  destruct (setitem r1 _ _); simplify_eq. reflexivity.
Qed.

(** C7 (amended). Over a store that keeps what is set and forgets what is
    deleted, after a run outside check mode that returned, a second run with
    the same parameters, in either mode, on the remote state the first run
    left, returns [changed = False], and its only call is the read. *)
Theorem second_run_unchanged p cm w r1 s1 :
  store_laws client ->
  exec p false (start w) = (Ret r1, s1) ->
  exists r2,
    exec p cm (start (world s1))
    = (Ret r2, {| world := world s1; calls := [read_call p] |})
    /\ changed r2 = false.
Proof.
  intros [Hset Hdel] Hexec.
  destruct (exec_ret_inv _ _ _ _ _ Hexec)
    as (results & chg & vf & ex & st & Hread & Hdates & Hw & ->).
  assert (Hdone : forall results2,
             read p (start (world s1))
             = (Ret (results2, false), after_read p (start (world s1))) ->
             exists r2,
               exec p cm (start (world s1))
               = (Ret r2, {| world := world s1; calls := [read_call p] |})
               /\ changed r2 = false).
  { intros results2 Hread2.
    destruct (exec_no_change p cm _ _ _ Hread2) as (_ & _ & Hok).
    eexists. split; [exact (Hok Hdates)|reflexivity]. }
  destruct chg.
  - destruct (state p) eqn:Hstate.
    + destruct (write_phase_created _ _ _ _ _ _ _ Hstate Hw) as [b Hb].
      destruct (Hset _ _ _ _ _ _ _ _ _ Hb) as (b' & Hget & Hval).
      pose proof (read_phase_found p (start (world s1)) b' Hget) as Hread2.
      rewrite Hstate in Hread2.
      eapply Hdone. rewrite Hread2. do 3 f_equal.
      destruct (secret_value p) as [sv|]; [|reflexivity].
      rewrite (Hval sv eq_refl). rewrite bool_decide_eq_true_2 by done.
      apply andb_false_r.
    + destruct (write_phase_deleted _ _ _ _ _ _ _ Hstate Hw) as [b Hb].
      destruct (Hdel _ _ _ _ _ Hb) as (status & Hget).
      pose proof (read_phase_keyvault_error p (start (world s1)) _ Hget) as Hread2.
      rewrite Hstate in Hread2. eapply Hdone. exact Hread2.
  - rewrite write_phase_unchanged in Hw. injection Hw as _ <-.
    eapply Hdone. exact Hread.
Qed.

(** Every run that returns after a read that found the secret hands the
    fetched value back under the key [secret_value] of its state. *)
Lemma returned_state_keeps_value p cm w b r s' :
  sdk_read p w = Ret (Some b) ->
  exec p cm (start w) = (Ret r, s') ->
  exists d, result_state r = Some d
            /\ d !! "secret_value" = Some (bundle_value b).
Proof.
  intros Hget Hexec.
  destruct (exec_ret_inv _ _ _ _ _ Hexec)
    as (results & chg & vf & ex & st & Hread & _ & Hw & ->).
  rewrite (read_phase_found p (start w) _ Hget) in Hread.
  injection Hread as <- _. simpl.
  pose proof (record_of_value b) as Hval.
  revert Hw. unfold write_phase, create_update_secret, delete_secret,
    client_set_secret, client_delete_secret, bind, log_call, ret, lift, setitem.
  destruct cm, (state p), chg; simpl;
    try destruct (sdk_set_secret _ _ _ _ _ _ _ _) as [[b'|e'] w'];
    try destruct (sdk_delete_secret _ _ _ _) as [[b'|e'] w'];
    intros Hw; simplify_eq; eexists; (split; [reflexivity|]);
    rewrite ?lookup_insert_ne by done; exact Hval.
Qed.

(** *** The shape of a run *)

Lemma parse_date_pure v (s s0 : St datetime W) :
  parse_date dateutil_parse v s = ((parse_date dateutil_parse v s0).1, s).
Proof.
  unfold parse_date, ret, raise. repeat case_match; reflexivity.
Qed.

(** A run whose read phase returned and whose dates got through is its
    write phase. *)
Lemma exec_write_step p cm s (s0 : St datetime W) results chg s1 vf ex :
  read p s = (Ret (results, chg), s1) ->
  (parse_date dateutil_parse (secret_valid_from p) s0).1 = Ret vf ->
  (parse_date dateutil_parse (secret_expiry p) s0).1 = Ret ex ->
  exec p cm s =
  (st <- write_phase client parse_secret_id p cm results chg vf ex ;;
   ret {| changed := chg; result_state := st |}) s1.
Proof.
  intros Hread Hvf Hex. rewrite (exec_after_read _ _ _ _ _ _ Hread).
  unfold bind at 1. rewrite (parse_date_pure (secret_valid_from p) s1 s0), Hvf.
  unfold bind at 1. rewrite (parse_date_pure (secret_expiry p) s1 s0), Hex.
  reflexivity.
Qed.

(** A run whose read phase returned ends with the parser's error when a
    date does not get through. *)
Lemma exec_date_raises p cm s (s0 : St datetime W) results chg s1 :
  read p s = (Ret (results, chg), s1) ->
  (forall e, (parse_date dateutil_parse (secret_valid_from p) s0).1 = Raise e ->
             exec p cm s = (Raise e, s1))
  /\ (forall vf e,
        (parse_date dateutil_parse (secret_valid_from p) s0).1 = Ret vf ->
        (parse_date dateutil_parse (secret_expiry p) s0).1 = Raise e ->
        exec p cm s = (Raise e, s1)).
Proof.
  intros Hread. rewrite (exec_after_read _ _ _ _ _ _ Hread). split.
  - intros e Hvf. unfold bind at 1.
    rewrite (parse_date_pure (secret_valid_from p) s1 s0), Hvf. reflexivity.
  - intros vf e Hvf Hex. unfold bind at 1.
    rewrite (parse_date_pure (secret_valid_from p) s1 s0), Hvf.
    unfold bind at 1.
    rewrite (parse_date_pure (secret_expiry p) s1 s0), Hex. reflexivity.
Qed.

Lemma dates_ok_parsed p (s0 : St datetime W) :
  dates_ok dateutil_parse p = true ->
  exists vf ex,
    (parse_date dateutil_parse (secret_valid_from p) s0).1 = Ret vf
    /\ (parse_date dateutil_parse (secret_expiry p) s0).1 = Ret ex.
Proof.
  unfold dates_ok. intros [H1 H2]%andb_true_iff.
  destruct (parse_date_ok _ s0 H1) as [vf Hvf].
  destruct (parse_date_ok _ s0 H2) as [ex Hex].
  exists vf, ex. rewrite Hvf, Hex. split; reflexivity.
Qed.

Ltac run_write :=
  unfold write_phase, create_update_secret, delete_secret, client_set_secret,
    client_delete_secret, bind, log_call, ret, lift, setitem, set_call,
    delete_call; simpl.

(** What a write phase leaves: the state it started on, or that state after
    one set-secret, or after one delete-secret. *)
Lemma write_phase_calls p cm results chg vf ex s :
  let s' := (write_phase client parse_secret_id p cm results chg vf ex s).2 in
  s' = s
  \/ (cm = false /\ state p = present /\ chg = true
      /\ calls s' = (calls s ++ [set_call p vf ex])%list)
  \/ (cm = false /\ state p = absent /\ chg = true
      /\ calls s' = (calls s ++ [delete_call p])%list).
Proof.
  run_write.
  destruct cm, (state p) eqn:Hst, chg; simpl;
    try (left; destruct results; reflexivity).
  - right. left. repeat split.
    destruct (sdk_set_secret _ _ _ _ _ _ _ _) as [[b|e] w'];
      destruct results; reflexivity.
  - right. right. repeat split.
    destruct (sdk_delete_secret _ _ _ _) as [[b|e] w'];
      destruct results; reflexivity.
Qed.

(** X1. Whatever its outcome, a run issues the read first and at most one
    write after it: nothing more than the read (and then the vault is as it
    was), or the read and one set-secret, only outside check mode with state
    present, or the read and one delete-secret, only outside check mode with
    state absent. *)
Theorem run_call_discipline p cm w :
  let s' := (exec p cm (start w)).2 in
  (calls s' = [read_call p] /\ world s' = w)
  \/ (cm = false /\ state p = present
      /\ exists vf ex, calls s' = [read_call p; set_call p vf ex])
  \/ (cm = false /\ state p = absent
      /\ calls s' = [read_call p; delete_call p]).
Proof.
  intros s'. subst s'.
  pose proof (read_phase_state p (start w)) as Hst.
  destruct (read p (start w)) as [[[results chg]|e] s1] eqn:Hread;
    simpl in Hst; subst s1.
  2:{ rewrite (exec_read_raises _ _ _ _ _ Hread). left. split; reflexivity. }
  destruct ((parse_date dateutil_parse (secret_valid_from p) (start w)).1)
    as [vf|e1] eqn:Hvf.
  2:{ rewrite (proj1 (exec_date_raises _ cm _ (start w) _ _ _ Hread) e1 Hvf).
      left. split; reflexivity. }
  destruct ((parse_date dateutil_parse (secret_expiry p) (start w)).1)
    as [ex|e2] eqn:Hex.
  2:{ rewrite (proj2 (exec_date_raises _ cm _ (start w) _ _ _ Hread) vf e2 Hvf Hex).
      left. split; reflexivity. }
  rewrite (exec_write_step _ _ _ _ _ _ _ _ _ Hread Hvf Hex).
  pose proof (write_phase_calls p cm results chg vf ex (after_read p (start w)))
    as Hw. simpl in Hw.
  unfold bind, ret.
  destruct (write_phase _ _ _ _ _ _ _ _ _) as [[st|e3] s3]; simpl in *;
    (destruct Hw as [->|[(-> & Hp & _ & Hc)|(-> & Hp & _ & Hc)]];
     [left; split; reflexivity
     |right; left; repeat split; [exact Hp|exists vf, ex; exact Hc]
     |right; right; repeat split; [exact Hp|exact Hc]]).
Qed.

(** X2. An error of the read that is not a [KeyVaultErrorException] is not
    caught: the run ends with that very error, in either mode, after the
    read alone. *)
Theorem read_error_propagates p cm w e :
  sdk_read p w = Raise e ->
  (forall status, e <> KeyVaultErrorException status) ->
  exec p cm (start w) = (Raise e, {| world := w; calls := [read_call p] |}).
Proof.
  intros Hget Hne.
  apply exec_read_raises.
  exact (read_phase_other_error p (start w) e Hget Hne).
Qed.

(** A run outside check mode that creates. *)
Lemma exec_create p w d vf ex b w' :
  read p (start w) = (Ret (Some d, true), after_read p (start w)) ->
  state p = present ->
  (parse_date dateutil_parse (secret_valid_from p) (start w)).1 = Ret vf ->
  (parse_date dateutil_parse (secret_expiry p) (start w)).1 = Ret ex ->
  sdk_set_secret client (keyvault_uri p) (secret_name p) (secret_value p)
    (tags p) (content_type p) {| expires := ex; not_before := vf |} w
  = (Ret b, w') ->
  exec p false (start w) =
  (Ret {| changed := true;
          result_state :=
            Some (<["status" := "Created"]>
                    (<["secret_id" := parse_secret_id (bundle_id b)]> d)) |},
   {| world := w'; calls := [read_call p; set_call p vf ex] |}).
Proof.
  intros Hread Hst Hvf Hex Hset.
  rewrite (exec_write_step _ _ _ _ _ _ _ _ _ Hread Hvf Hex).
  run_write. rewrite Hst. simpl. rewrite Hset. reflexivity.
Qed.

(** X3. The create path. Outside check mode, with state present, a read
    answered by a [KeyVaultErrorException] of any status, dates that get
    through and a set-secret the service accepts: the run issues the read
    and one set-secret carrying the name, the value, the tags, the content
    type, [not_before] from [secret_valid_from] and [expires] from
    [secret_expiry]; it returns [changed = True] and a state made of the
    identifier of the bundle written and the status "Created". *)
Theorem create_after_missing p w status vf ex b w' :
  state p = present ->
  sdk_read p w = Raise (KeyVaultErrorException status) ->
  (parse_date dateutil_parse (secret_valid_from p) (start w)).1 = Ret vf ->
  (parse_date dateutil_parse (secret_expiry p) (start w)).1 = Ret ex ->
  sdk_set_secret client (keyvault_uri p) (secret_name p) (secret_value p)
    (tags p) (content_type p) {| expires := ex; not_before := vf |} w
  = (Ret b, w') ->
  exec p false (start w) =
  (Ret {| changed := true;
          result_state :=
            Some (<["status" := "Created"]>
                    (<["secret_id" := parse_secret_id (bundle_id b)]> ∅)) |},
   {| world := w'; calls := [read_call p; set_call p vf ex] |}).
Proof.
  intros Hst Hget Hvf Hex Hset.
  apply exec_create; try done.
  rewrite (read_phase_keyvault_error p (start w) _ Hget), Hst. reflexivity.
Qed.

(** X4. The update path. Outside check mode, with state present and a
    non-empty value, a read that finds another value, dates that get through
    and a set-secret the service accepts: the run returns [changed = True]
    and the record read with its identifier replaced by that of the bundle
    written and the status "Created"; the value it still holds is the one
    read, not the one written. *)
Theorem update_on_other_value p w v b vf ex b' w' :
  state p = present ->
  secret_value p = Some v -> v <> "" ->
  sdk_read p w = Ret (Some b) ->
  bundle_value b <> v ->
  (parse_date dateutil_parse (secret_valid_from p) (start w)).1 = Ret vf ->
  (parse_date dateutil_parse (secret_expiry p) (start w)).1 = Ret ex ->
  sdk_set_secret client (keyvault_uri p) (secret_name p) (secret_value p)
    (tags p) (content_type p) {| expires := ex; not_before := vf |} w
  = (Ret b', w') ->
  exec p false (start w) =
  (Ret {| changed := true;
          result_state :=
            Some (<["status" := "Created"]>
                    (<["secret_id" := parse_secret_id (bundle_id b')]>
                       (<["secret_value" := bundle_value b]> ∅))) |},
   {| world := w'; calls := [read_call p; set_call p vf ex] |}).
Proof.
  intros Hst Hval Hne Hget Hdiff Hvf Hex Hset.
  assert (Hread : read p (start w)
                  = (Ret (Some (record_of parse_secret_id b), true),
                     after_read p (start w))).
  { rewrite (read_phase_found p (start w) _ Hget), Hst, Hval. simpl.
    apply String.eqb_neq in Hne. rewrite Hne. simpl.
    rewrite bool_decide_eq_false_2 by congruence. reflexivity. }
  rewrite (exec_create p w _ vf ex b' w' Hread Hst Hvf Hex Hset).
  unfold record_of. rewrite insert_insert_eq. reflexivity.
Qed.

(** X5. The delete path. Outside check mode, with state absent, whatever
    [secret_value] is, a read that finds the secret, dates that get through
    and a delete-secret the service accepts: the run issues the read and one
    delete-secret, returns [changed = True] and the record read with its
    identifier replaced by that of the deleted bundle and the status
    "Deleted". *)
Theorem delete_on_found p w b b' w' :
  state p = absent ->
  sdk_read p w = Ret (Some b) ->
  dates_ok dateutil_parse p = true ->
  sdk_delete_secret client (keyvault_uri p) (secret_name p) w = (Ret b', w') ->
  exec p false (start w) =
  (Ret {| changed := true;
          result_state :=
            Some (<["status" := "Deleted"]>
                    (<["secret_id" := parse_secret_id (bundle_id b')]>
                       (<["secret_value" := bundle_value b]> ∅))) |},
   {| world := w'; calls := [read_call p; delete_call p] |}).
Proof.
  intros Hst Hget Hdates Hdel.
  destruct (dates_ok_parsed p (start w) Hdates) as (vf & ex & Hvf & Hex).
  pose proof (read_phase_found p (start w) _ Hget) as Hread.
  rewrite Hst in Hread.
  rewrite (exec_write_step _ _ _ _ _ _ _ _ _ Hread Hvf Hex).
  run_write. rewrite Hst. simpl. rewrite Hdel. simpl.
  unfold record_of. rewrite insert_insert_eq. reflexivity.
Qed.

(** X6. An error of the write is not caught, whatever it is, a
    [KeyVaultErrorException] included: when the read phase computed
    [changed = True] and the dates got through, outside check mode a
    set-secret that raises (state present) or a delete-secret that raises
    (state absent) ends the run with that very error, after the read and
    that one write call, on the remote state the failed call left. *)
Theorem write_error_propagates p w results vf ex e w' :
  (read p (start w)).1 = Ret (results, true) ->
  (parse_date dateutil_parse (secret_valid_from p) (start w)).1 = Ret vf ->
  (parse_date dateutil_parse (secret_expiry p) (start w)).1 = Ret ex ->
  (state p = present ->
   sdk_set_secret client (keyvault_uri p) (secret_name p) (secret_value p)
     (tags p) (content_type p) {| expires := ex; not_before := vf |} w
   = (Raise e, w') ->
   exec p false (start w) =
   (Raise e, {| world := w'; calls := [read_call p; set_call p vf ex] |}))
  /\ (state p = absent ->
      sdk_delete_secret client (keyvault_uri p) (secret_name p) w
      = (Raise e, w') ->
      exec p false (start w) =
      (Raise e, {| world := w'; calls := [read_call p; delete_call p] |})).
Proof.
  intros Hread1 Hvf Hex.
  assert (Hread : read p (start w)
                  = (Ret (results, true), after_read p (start w))).
  { pose proof (read_phase_state p (start w)) as Hst.
    destruct (read p (start w)) as [r1 s1]. simpl in *. congruence. }
  split; intros Hst Hcall;
    rewrite (exec_write_step _ _ _ _ _ _ _ _ _ Hread Hvf Hex);
    run_write; rewrite Hst; simpl; rewrite Hcall; reflexivity.
Qed.

(** X7. Check mode predicts the run: whenever a run outside check mode
    returns, the run in check mode from the same remote state returns too,
    after the read alone, with the same [changed], and its state agrees with
    the state of the real run on every key other than [secret_id]. *)
Theorem check_mode_predicts_run p w r s' :
  exec p false (start w) = (Ret r, s') ->
  exists r',
    exec p true (start w) = (Ret r', {| world := w; calls := [read_call p] |})
    /\ changed r' = changed r
    /\ forall k : string,
         k <> "secret_id" ->
         (result_state r' ≫= (.!! k)) = (result_state r ≫= (.!! k)).
Proof.
  intros Hexec.
  destruct (exec_ret_inv _ _ _ _ _ Hexec)
    as (results & chg & vf & ex & st & Hread & Hdates & Hw & ->).
  destruct (dates_ok_parsed p (start w) Hdates) as (vf' & ex' & Hvf & Hex).
  rewrite (exec_write_step _ true _ _ _ _ _ _ _ Hread Hvf Hex).
  revert Hw. run_write.
  destruct (state p), chg; simpl;
    try (intros [= <- _]; eexists; repeat split; done).
  - destruct (sdk_set_secret _ _ _ _ _ _ _ _) as [[b|e] w1]; [|discriminate].
    destruct results as [d|]; [|discriminate]. simpl. intros [= <- _].
    eexists. split; [reflexivity|]. split; [reflexivity|].
    intros k Hk. simpl.
    destruct (decide (k = "status")) as [->|Hs].
    + rewrite !lookup_insert_eq. reflexivity.
    + rewrite !lookup_insert_ne by done. reflexivity.
  - destruct (sdk_delete_secret _ _ _ _) as [[b|e] w1]; [|discriminate].
    destruct results as [d|]; [|discriminate]. simpl. intros [= <- _].
    eexists. split; [reflexivity|]. split; [reflexivity|].
    intros k Hk. simpl.
    destruct (decide (k = "status")) as [->|Hs].
    + rewrite !lookup_insert_eq. reflexivity.
    + rewrite !lookup_insert_ne by done. reflexivity.
Qed.

(** The read phase on a falsy bundle. *)
Lemma read_phase_falsy p s :
  sdk_read p (world s) = Ret None ->
  read p s =
  (match state p with
   | absent => Ret (None, true)
   | present =>
       if truthy (secret_value p)
       then Raise (TypeError "'NoneType' object is not subscriptable")
       else Ret (None, false)
   end,
   after_read p s).
Proof.
  intros Hget. run_read. rewrite Hget.
  destruct (state p); [|reflexivity].
  destruct (truthy (secret_value p)); reflexivity.
Qed.

(** X8. When the SDK's read answers with a falsy bundle, [get_secret]
    returns None and the run goes as follows. State present with a
    non-empty value: [TypeError] on the subscript, after the read alone,
    whatever the dates are. In the other cases, when the date strings are
    unset, empty or readable: state present with no value or the empty one
    gives [changed = False] with None as the state; state absent in check
    mode gives [TypeError] on the status assignment, after the read alone;
    state absent outside check mode issues the delete-secret first, and
    when the service accepts it the run then ends with [TypeError], on the
    remote state the delete left. *)
Theorem falsy_bundle_runs p w :
  sdk_read p w = Ret None ->
  (state p = present -> truthy (secret_value p) = true ->
   forall cm,
     exec p cm (start w) =
     (Raise (TypeError "'NoneType' object is not subscriptable"),
      {| world := w; calls := [read_call p] |}))
  /\ (state p = present -> truthy (secret_value p) = false ->
      dates_ok dateutil_parse p = true ->
      forall cm,
        exec p cm (start w) =
        (Ret {| changed := false; result_state := None |},
         {| world := w; calls := [read_call p] |}))
  /\ (state p = absent -> dates_ok dateutil_parse p = true ->
      exec p true (start w) =
      (Raise (TypeError "'NoneType' object does not support item assignment"),
       {| world := w; calls := [read_call p] |}))
  /\ (state p = absent -> dates_ok dateutil_parse p = true ->
      forall b w',
        sdk_delete_secret client (keyvault_uri p) (secret_name p) w = (Ret b, w') ->
        exec p false (start w) =
        (Raise (TypeError "'NoneType' object does not support item assignment"),
         {| world := w'; calls := [read_call p; delete_call p] |})).
Proof.
  intros Hget.
  pose proof (read_phase_falsy p (start w) Hget) as Hread.
  split; [|split; [|split]].
  - intros Hst Htr cm. rewrite Hst, Htr in Hread.
    exact (exec_read_raises _ cm _ _ _ Hread).
  - intros Hst Htr Hdates cm. rewrite Hst, Htr in Hread.
    destruct (exec_no_change p cm _ _ _ Hread) as (_ & _ & Hok).
    exact (Hok Hdates).
  - intros Hst Hdates. rewrite Hst in Hread.
    destruct (dates_ok_parsed p (start w) Hdates) as (vf & ex & Hvf & Hex).
    rewrite (exec_write_step _ _ _ _ _ _ _ _ _ Hread Hvf Hex).
    run_write. rewrite Hst. reflexivity.
  - intros Hst Hdates b w' Hdel. rewrite Hst in Hread.
    destruct (dates_ok_parsed p (start w) Hdates) as (vf & ex & Hvf & Hex).
    rewrite (exec_write_step _ _ _ _ _ _ _ _ _ Hread Hvf Hex).
    run_write. rewrite Hst. simpl. rewrite Hdel. reflexivity.
Qed.

(** What the read phase returns holds no status. *)
Lemma read_phase_no_status p s results chg s1 :
  read p s = (Ret (results, chg), s1) ->
  results ≫= (.!! "status") = None.
Proof.
  destruct (sdk_read p (world s)) as [[b|]|e] eqn:Hget.
  - rewrite (read_phase_found p s _ Hget). intros [= <- _ _]. simpl.
    unfold record_of. rewrite !lookup_insert_ne by done. apply lookup_empty.
  - rewrite (read_phase_falsy p s Hget).
    destruct (state p); [destruct (truthy _)|]; intros [= <- _ _]; reflexivity.
  - destruct e as [status| | | | |];
      try (rewrite (read_phase_other_error p s _ Hget) by discriminate;
           discriminate).
    rewrite (read_phase_keyvault_error p s _ Hget).
    intros [= <- _ _]. reflexivity.
Qed.

(** X9. The status tells the change: in the state of every run that
    returns, in either mode, the key [status] is there exactly when
    [changed] is true, and it is then "Created" for state present and
    "Deleted" for state absent. *)
Theorem status_tracks_changed p cm w r s' :
  exec p cm (start w) = (Ret r, s') ->
  result_state r ≫= (.!! "status")
  = if changed r then Some (prospective_label (state p)) else None.
Proof.
  intros Hexec.
  destruct (exec_ret_inv _ _ _ _ _ Hexec)
    as (results & chg & vf & ex & st & Hread & _ & Hw & ->).
  pose proof (read_phase_no_status _ _ _ _ _ Hread) as Hno.
  revert Hw. run_write.
  destruct cm, (state p), chg; simpl;
    try destruct (sdk_set_secret _ _ _ _ _ _ _ _) as [[b|e] w1];
    try destruct (sdk_delete_secret _ _ _ _) as [[b|e] w1];
    try destruct results as [d|]; simpl;
    intros Hw; simplify_eq; simpl;
    rewrite ?lookup_insert_eq; try reflexivity; exact Hno.
Qed.

(** X17. A secret that already holds the wanted value is left alone: with
    state present, a read that finds the secret with the value of
    [secret_value] and dates that get through, the run, in either mode,
    issues the read and nothing else and returns [changed = False] with the
    record read. *)
Theorem same_value_is_noop p cm w b :
  state p = present ->
  sdk_read p w = Ret (Some b) ->
  secret_value p = Some (bundle_value b) ->
  dates_ok dateutil_parse p = true ->
  exec p cm (start w) =
  (Ret {| changed := false;
          result_state := Some (record_of parse_secret_id b) |},
   {| world := w; calls := [read_call p] |}).
Proof.
  intros Hst Hget Hval Hdates.
  pose proof (read_phase_found p (start w) _ Hget) as Hread.
  rewrite Hst, Hval in Hread.
  rewrite bool_decide_eq_true_2, andb_false_r in Hread by done.
  destruct (exec_no_change p cm _ _ _ Hread) as (_ & _ & Hok).
  exact (Hok Hdates).
Qed.

(** X18. Outside check mode [changed] reports what was done: a run that
    returns has [changed = True] exactly when it issued a write, and with
    [changed = False] the vault is as it was. *)
Theorem changed_iff_written p w r s' :
  exec p false (start w) = (Ret r, s') ->
  changed r = negb (forallb (fun c => negb (is_write c)) (calls s'))
  /\ (changed r = false -> world s' = w).
Proof.
  intros Hexec.
  destruct (exec_ret_inv _ _ _ _ _ Hexec)
    as (results & chg & vf & ex & st & _ & _ & Hw & ->).
  revert Hw. run_write.
  destruct (state p), chg; simpl;
    try destruct (sdk_set_secret _ _ _ _ _ _ _ _) as [[b|e] w1];
    try destruct (sdk_delete_secret _ _ _ _) as [[b|e] w1];
    try destruct results as [d|]; simpl;
    intros Hw; simplify_eq; simpl; split; done.
Qed.

End ReconcilerFacts.

Section ResolverFacts.

Context {Cred Profile : Type}.
Variable MSIAuthentication : string -> option Cred.
Variable get_cli_profile : option Profile.
Variable get_login_credentials : Profile -> option string -> string -> option Cred.
Variable ServicePrincipalCredentials_token : ServicePrincipalArgs -> res Token.

Local Abbreviation resolve :=
  (get_keyvault_client MSIAuthentication get_cli_profile get_login_credentials
     ServicePrincipalCredentials_token).
Local Abbreviation callback :=
  (auth_callback ServicePrincipalCredentials_token).

(** C3 (amended). With auth_source "msi" and a managed-identity acquisition
    that fails, the resolver does not abort and does not try the CLI
    profile: after the one MSI attempt it hands back the client built on the
    service-principal callback. *)
Theorem msi_failure_goes_to_callback (self : AuthSelf) :
  auth_source self = "msi" ->
  MSIAuthentication (kv_resource self) = None ->
  resolve self =
  (ClientCallback (callback self),
   [Log "Get KeyVaultClient from MSI";
    CallMSI (kv_resource self);
    Log "Get KeyVaultClient from service principal"])
  /\ cli_attempted (resolve self).2 = false.
Proof.
  intros Hsrc Hmsi. unfold get_keyvault_client.
  rewrite Hsrc, Hmsi. simpl. split; reflexivity.
Qed.


Ltac run_resolver :=
  unfold get_keyvault_client, msi_attempted, cli_attempted; simpl.

(** X10. The managed identity is asked only on request: when auth_source is
    not "msi" the resolver never calls [MSIAuthentication], whatever the
    CLI profile does. *)
Theorem msi_only_on_request (self : AuthSelf) :
  auth_source self <> "msi" ->
  msi_attempted (resolve self).2 = false.
Proof.
  intros Hne%String.eqb_neq. run_resolver. rewrite Hne.
  destruct (_ || _); [|reflexivity].
  destruct get_cli_profile as [profile|]; [|reflexivity].
  destruct (credentials self !! "subscription_id") as [sub|]; [|reflexivity].
  destruct (get_login_credentials _ _ _); reflexivity.
Qed.

(** X11. The resolver tries one strategy at most before the callback: no
    run asks both the managed identity and the CLI profile. *)
Theorem one_strategy_at_most (self : AuthSelf) :
  msi_attempted (resolve self).2 && cli_attempted (resolve self).2 = false.
Proof.
  run_resolver.
  destruct (String.eqb (auth_source self) "msi").
  - destruct (MSIAuthentication _); reflexivity.
  - destruct (_ || _); [|reflexivity].
    destruct get_cli_profile as [profile|]; [|reflexivity].
    destruct (credentials self !! "subscription_id") as [sub|]; [|reflexivity].
    destruct (get_login_credentials _ _ _); reflexivity.
Qed.

(** X12. Where a credentials client comes from: the resolver hands back a
    client built on the credentials [c] exactly when auth_source is "msi"
    and the managed identity gave [c] for the vault resource, or auth_source
    is "auto" or "cli", the CLI profile loaded, [credentials] holds a
    subscription entry and the login gave [c] for that subscription and the
    vault resource. In every other case the client is the callback one. *)
Theorem credential_client_origin (self : AuthSelf) (c : Cred) :
  ((resolve self).1 = ClientOf c <->
   (auth_source self = "msi" /\ MSIAuthentication (kv_resource self) = Some c)
   \/ ((auth_source self = "auto" \/ auth_source self = "cli")
       /\ exists profile sub,
            get_cli_profile = Some profile
            /\ credentials self !! "subscription_id" = Some sub
            /\ get_login_credentials profile sub (kv_resource self) = Some c))
  /\ ((forall c', (resolve self).1 <> ClientOf c') ->
      (resolve self).1 = ClientCallback (callback self)).
Proof.
  split; [split|].
  - unfold get_keyvault_client.
    destruct (String.eqb_spec (auth_source self) "msi") as [Hmsi|Hmsi].
    { destruct (MSIAuthentication _) as [c0|] eqn:Hc; simpl; [|discriminate].
      intros [= ->]. left. done. }
    destruct (_ || _) eqn:Hsrc; simpl; [|discriminate].
    destruct get_cli_profile as [profile|] eqn:Hp; simpl; [|discriminate].
    destruct (credentials self !! "subscription_id") as [sub|] eqn:Hs; simpl;
      [|discriminate].
    destruct (get_login_credentials _ _ _) as [c0|] eqn:Hl; simpl;
      [|discriminate].
    intros [= ->]. right. split.
    + apply orb_true_iff in Hsrc as [H|H]; apply String.eqb_eq in H; auto.
    + exists profile, sub. done.
  - unfold get_keyvault_client.
    intros [[Hsrc Hc]|[Hsrc (profile & sub & Hp & Hs & Hl)]].
    + rewrite Hsrc. simpl. rewrite Hc. reflexivity.
    + destruct Hsrc as [Hsrc|Hsrc]; rewrite Hsrc; simpl;
        rewrite Hp, Hs, Hl; reflexivity.
  - intros Hno. unfold get_keyvault_client in *.
    destruct (String.eqb (auth_source self) "msi").
    + destruct (MSIAuthentication _) as [c0|]; [|reflexivity].
      exfalso. eapply Hno. reflexivity.
    + destruct (_ || _); [|reflexivity].
      destruct get_cli_profile as [profile|]; [|reflexivity].
      destruct (credentials self !! "subscription_id") as [sub|]; [|reflexivity].
      destruct (get_login_credentials _ _ _) as [c0|]; [|reflexivity].
      exfalso. eapply Hno. reflexivity.
Qed.

(** X13. With auth_source "auto" or "cli", no failure on the CLI path
    aborts: when the profile cannot be loaded, when [credentials] has no
    subscription entry (then the login is not even called), or when the
    login fails, the resolver logs the switch and hands back the callback
    client. *)
Theorem cli_failure_goes_to_callback (self : AuthSelf) :
  auth_source self = "auto" \/ auth_source self = "cli" ->
  (get_cli_profile = None ->
   resolve self =
   (ClientCallback (callback self),
    [CallCliProfile; Log "Get KeyVaultClient from service principal"]))
  /\ (forall profile,
        get_cli_profile = Some profile ->
        credentials self !! "subscription_id" = None ->
        resolve self =
        (ClientCallback (callback self),
         [CallCliProfile; Log "Get KeyVaultClient from service principal"]))
  /\ (forall profile sub,
        get_cli_profile = Some profile ->
        credentials self !! "subscription_id" = Some sub ->
        get_login_credentials profile sub (kv_resource self) = None ->
        resolve self =
        (ClientCallback (callback self),
         [CallCliProfile; CallCliLogin sub (kv_resource self);
          Log "Get KeyVaultClient from service principal"])).
Proof.
  intros Hsrc. unfold get_keyvault_client.
  split; [|split].
  - intros Hp. destruct Hsrc as [-> | ->]; simpl; rewrite Hp; reflexivity.
  - intros profile Hp Hs.
    destruct Hsrc as [-> | ->]; simpl; rewrite Hp, Hs; reflexivity.
  - intros profile sub Hp Hs Hl.
    destruct Hsrc as [Hsrc | Hsrc]; rewrite Hsrc; simpl;
      rewrite Hp, Hs, Hl; reflexivity.
Qed.

(** X14. The callback returns a token exactly when [credentials] gives a
    client id and a secret that are not None and has a tenant entry, and
    the SDK grants a token for them; what it returns is that token's type
    and access token, whatever the server, resource and scope it is called
    with. *)
Theorem callback_success_exactly (self : AuthSelf) server resource scope ty tok :
  callback self server resource scope = Ret (ty, tok) <->
  exists client_id secret tenant token,
    credentials self !! "client_id" = Some (Some client_id)
    /\ credentials self !! "secret" = Some (Some secret)
    /\ credentials self !! "tenant" = Some tenant
    /\ ServicePrincipalCredentials_token
         {| sp_client_id := client_id;
            sp_secret := secret;
            sp_tenant := if truthy tenant then tenant else Some "common";
            sp_cloud_environment := cloud_environment self;
            sp_resource := kv_resource self |} = Ret token
    /\ ty = token_type token /\ tok = access_token token.
Proof.
  unfold auth_callback, auth_callback_args, fail. split.
  - destruct (credentials self !! "client_id") as [[cid|]|]; try discriminate.
    destruct (credentials self !! "secret") as [[sec|]|]; try discriminate.
    destruct (credentials self !! "tenant") as [ten|]; try discriminate.
    destruct (truthy ten) eqn:Htr; simpl;
      destruct (ServicePrincipalCredentials_token _) as [token|e] eqn:Htok;
      try discriminate; intros [= <- <-];
      exists cid, sec, ten, token; rewrite Htr; done.
  - intros (cid & sec & ten & token & -> & -> & -> & Htok & -> & ->).
    destruct (truthy ten); simpl; rewrite Htok; reflexivity.
Qed.

(** X15. A [credentials] dict that lacks a key makes the callback raise
    [KeyError] before the SDK is asked for anything: on a missing
    [client_id]; on a missing [secret] when the client id is given; and on a
    missing [tenant] when both are given, where no default tenant steps
    in. *)
Theorem callback_missing_key (self : AuthSelf) server resource scope :
  (credentials self !! "client_id" = None ->
   callback self server resource scope = Raise (KeyError "client_id"))
  /\ (forall client_id,
        credentials self !! "client_id" = Some (Some client_id) ->
        credentials self !! "secret" = None ->
        callback self server resource scope = Raise (KeyError "secret"))
  /\ (forall client_id secret,
        credentials self !! "client_id" = Some (Some client_id) ->
        credentials self !! "secret" = Some (Some secret) ->
        credentials self !! "tenant" = None ->
        callback self server resource scope = Raise (KeyError "tenant")).
Proof.
  unfold auth_callback, auth_callback_args. split; [|split].
  - intros ->. reflexivity.
  - intros cid -> ->. reflexivity.
  - intros cid sec -> -> ->. reflexivity.
Qed.

End ResolverFacts.

(** X16. The vault resource: [kv_url] is what follows the first dot of the
    cloud's Key Vault DNS suffix, and the suffix itself when it has no dot;
    the resource every strategy is asked for is "https://" followed by
    it. *)
Theorem kv_url_after_first_dot (self : AuthSelf) :
  (forall pre rest,
      keyvault_dns self = pre +:+ "." +:+ rest -> has_dot pre = false ->
      kv_url self = rest /\ kv_resource self = "https://" +:+ rest)
  /\ (has_dot (keyvault_dns self) = false ->
      kv_url self = keyvault_dns self).
Proof.
  assert (Hsplit : forall pre rest,
             has_dot pre = false ->
             after_first_dot (pre +:+ "." +:+ rest) = Some rest).
  { induction pre as [|c pre IH]; intros rest Hno; simpl in *.
    - reflexivity.
    - apply orb_false_iff in Hno as [Hc Hno]. rewrite Hc. apply IH, Hno. }
  assert (Hnone : forall s, has_dot s = false -> after_first_dot s = None).
  { induction s as [|c s IH]; intros Hno; simpl in *.
    - reflexivity.
    - apply orb_false_iff in Hno as [Hc Hno]. rewrite Hc. apply IH, Hno. }
  unfold kv_resource, kv_url, split_dot_pop. split.
  - intros pre rest -> Hno. rewrite (Hsplit _ _ Hno). split; reflexivity.
  - intros Hno. rewrite (Hnone _ Hno). reflexivity.
Qed.

(** * Runs on the in-memory vault *)

Import MemVault.

(** Closes an equation between closed terms by evaluating both sides. *)
Ltac by_vm :=
  lazymatch goal with
  | |- @eq ?T ?l ?r => vm_cast_no_check (@eq_refl T r)
  end.

(** The in-memory vault keeps what is set and forgets what is deleted. *)
Lemma mem_store_laws : store_laws mem_client.
Proof.
  split.
  - intros uri name v tgs ct attrs w b w'. simpl. unfold mem_set, mem_get.
    destruct v as [s|]; [|discriminate]. intros [= <- <-].
    rewrite lookup_insert_eq. eexists. split; [reflexivity|].
    intros s' [= <-]. reflexivity.
  - intros uri name w b w'. simpl. unfold mem_delete, mem_get.
    destruct (w !! (uri, name)) as [v|] eqn:Hlook.
    + intros [= <- <-]. rewrite lookup_delete_eq. eauto.
    + discriminate.
Qed.

(** The scenarios of the EXAMPLES block: create on an empty vault, delete
    afterwards, delete again. *)
Example create_on_empty_vault :
  run create_MySecret false ∅ =
  (Ret {| changed := true;
          result_state :=
            Some (<["status" := "Created"]>
                    (<["secret_id" := "https://contoso.vault.azure.net/secrets/MySecret"]> ∅)) |},
   {| world := with_MySecret "My_Pass_Sec";
      calls := [GetSecret contoso "MySecret" "";
                SetSecret contoso "MySecret" (Some "My_Pass_Sec")
                  (tags create_MySecret) None
                  {| expires := DNone; not_before := DNone |}] |}).
Proof. by_vm. Qed.

Example delete_after_create :
  exists r s,
    run delete_MySecret false (with_MySecret "My_Pass_Sec") = (Ret r, s)
    /\ changed r = true
    /\ (result_state r ≫= (.!! "status")) = Some "Deleted"
    /\ world s = ∅
    /\ calls s = [GetSecret contoso "MySecret" ""; DeleteSecret contoso "MySecret"].
Proof.
  exists {| changed := true;
            result_state :=
              Some (<["status" := "Deleted"]>
                      (<["secret_id" := "https://contoso.vault.azure.net/secrets/MySecret"]>
                         (<["secret_value" := "My_Pass_Sec"]> ∅))) |},
    {| world := ∅;
       calls := [GetSecret contoso "MySecret" ""; DeleteSecret contoso "MySecret"] |}.
  split; [by_vm|]. repeat split; by_vm.
Qed.

Example delete_on_missing :
  run delete_MySecret false ∅ =
  (Ret {| changed := false; result_state := Some ∅ |},
   {| world := ∅; calls := [GetSecret contoso "MySecret" ""] |}).
Proof. by_vm. Qed.

(** C1, the claim as stated fails: the secret is found with the value "old",
    the presence is present and the wanted value, the empty string, differs
    from "old", so the rule of the contract gives [changed = True]; the run
    returns [changed = False]. *)
Lemma changed_flag_counterexample :
  read_reports mem_client blank_MySecret (with_MySecret "old") (ReadFound "old")
  /\ state blank_MySecret = present
  /\ Some "old" <> secret_value blank_MySecret
  /\ spec_changed (ReadFound "old") blank_MySecret = true
  /\ (run blank_MySecret false (with_MySecret "old")).1 =
     Ret {| changed := false;
            result_state := Some (record_of id (bundle contoso "MySecret" "old")) |}.
Proof.
  split; [|split; [|split; [|split]]].
  - eexists. split; reflexivity.
  - reflexivity.
  - discriminate.
  - reflexivity.
  - by_vm.
Qed.

Lemma changed_flag_rule_witness :
  read_reports mem_client create_MySecret ∅ ReadNotFound
  /\ exists results chg,
       read_phase mem_client id create_MySecret (start ∅)
       = (Ret (results, chg), after_read create_MySecret (start ∅))
       /\ (forall cm r s', run create_MySecret cm ∅ = (Ret r, s') -> changed r = chg)
       /\ (chg = true <->
             (ReadNotFound = ReadNotFound /\ state create_MySecret = present)
             \/ (exists v, ReadNotFound = ReadFound v /\ state create_MySecret = absent)
             \/ (exists v sv, ReadNotFound = ReadFound v
                              /\ state create_MySecret = present
                              /\ secret_value create_MySecret = Some sv
                              /\ sv <> "" /\ v <> sv)).
Proof.
  split; [reflexivity|].
  apply (changed_flag_rule mem_client id digits_parse create_MySecret ∅ ReadNotFound).
  reflexivity.
Defined.

Lemma dry_run_issues_no_write_witness :
  let out := run create_MySecret true ∅ in
  world out.2 = ∅
  /\ calls out.2 = [read_call create_MySecret]
  /\ no_write (calls out.2)
  /\ (forall r, out.1 = Ret r -> changed r = true ->
        exists d, result_state r = Some d
                  /\ d !! "status" = Some (prospective_label (state create_MySecret)))
  /\ (forall d, (read_phase mem_client id create_MySecret (start ∅)).1
                = Ret (Some d, true) ->
        dates_ok digits_parse create_MySecret = true ->
        out.1 = Ret {| changed := true;
                       result_state :=
                         Some (<["status" := prospective_label (state create_MySecret)]> d) |}).
Proof.
  exact (dry_run_issues_no_write mem_client id digits_parse create_MySecret ∅).
Defined.

(** C4, evaluated: "MySecret" holds "old" and the run sets "My_Pass_Sec".
    The state handed back carries the key [secret_value] with the value
    fetched by the read. *)
Theorem returned_state_holds_secret_value :
  run create_MySecret false (with_MySecret "old") =
  (Ret {| changed := true;
          result_state :=
            Some (<["status" := "Created"]>
                    (<["secret_id" := "https://contoso.vault.azure.net/secrets/MySecret"]>
                       (<["secret_value" := "old"]> ∅))) |},
   {| world := with_MySecret "My_Pass_Sec";
      calls := [GetSecret contoso "MySecret" "";
                SetSecret contoso "MySecret" (Some "My_Pass_Sec")
                  (tags create_MySecret) None
                  {| expires := DNone; not_before := DNone |}] |})
  /\ (forall cm, exists r s d,
         run create_MySecret cm (with_MySecret "My_Pass_Sec") = (Ret r, s)
         /\ changed r = false
         /\ result_state r = Some d
         /\ d !! "secret_value" = Some "My_Pass_Sec").
Proof.
  split; [by_vm|].
  intros cm.
  exists {| changed := false;
            result_state :=
              Some (record_of id (bundle contoso "MySecret" "My_Pass_Sec")) |},
    {| world := with_MySecret "My_Pass_Sec";
       calls := [GetSecret contoso "MySecret" ""] |},
    (record_of id (bundle contoso "MySecret" "My_Pass_Sec")).
  split; [destruct cm; by_vm|].
  split; [reflexivity|]. split; [reflexivity|]. by_vm.
Qed.

(** C5, the claim as stated fails: in check mode, with presence absent and
    no secret in the vault, the read phase computes [changed = False], and
    the run still parses the expiry and ends with the parser's error. *)
Lemma dates_parsed_counterexample :
  (read_phase mem_client id delete_with_bad_expiry (start ∅)).1
  = Ret (Some ∅, false)
  /\ state delete_with_bad_expiry = absent
  /\ run delete_with_bad_expiry true ∅ =
     (Raise (ValueError "next week"),
      {| world := ∅; calls := [read_call delete_with_bad_expiry] |}).
Proof.
  split; [|split]; [by_vm | reflexivity | by_vm].
Qed.

Lemma dates_parsed_on_every_run_witness :
  read_phase mem_client id delete_with_bad_expiry (start ∅)
  = (Ret (Some ∅, false), after_read delete_with_bad_expiry (start ∅))
  /\ (forall cm, run delete_with_bad_expiry cm ∅ =
                 (Raise (ValueError "next week"),
                  after_read delete_with_bad_expiry (start ∅))).
Proof.
  assert (Hread : read_phase mem_client id delete_with_bad_expiry (start ∅)
                  = (Ret (Some ∅, false), after_read delete_with_bad_expiry (start ∅)))
    by by_vm.
  split; [exact Hread|].
  intros cm.
  apply (proj1 (proj2 (dates_parsed_on_every_run mem_client id digits_parse
                         delete_with_bad_expiry cm ∅ _ _ _ Hread))
           "next week");
    [reflexivity | reflexivity | discriminate | reflexivity].
Defined.

(** C6, evaluated: the vault answers the read with 403 Forbidden. The run
    takes that for a missing secret: in check mode it returns
    [changed = True] with status "Created"; outside check mode it goes on to
    the set-secret call. *)
Theorem forbidden_read_taken_for_missing :
  exec_module forbidden_client id digits_parse create_MySecret true (start ∅) =
  (Ret {| changed := true;
          result_state := Some (<["status" := "Created"]> ∅) |},
   {| world := ∅; calls := [read_call create_MySecret] |})
  /\ read_phase forbidden_client id create_MySecret (start ∅) =
     (Ret (Some ∅, true), {| world := ∅; calls := [read_call create_MySecret] |})
  /\ exec_module forbidden_client id digits_parse create_MySecret false (start ∅) =
     (Raise (KeyVaultErrorException FORBIDDEN),
      {| world := ∅;
         calls := [read_call create_MySecret;
                   SetSecret contoso "MySecret" (Some "My_Pass_Sec")
                     (tags create_MySecret) None
                     {| expires := DNone; not_before := DNone |}] |}).
Proof.
  split; [|split]; by_vm.
Qed.

(** C7, the claim as stated fails: a first run in check mode returns and
    leaves the empty vault empty; the second run with the same parameters
    returns [changed = True] and issues the set-secret call. *)
Lemma second_run_counterexample :
  exists r1 s1 r2 s2,
    run create_MySecret true ∅ = (Ret r1, s1)
    /\ run create_MySecret false (world s1) = (Ret r2, s2)
    /\ changed r2 = true
    /\ forallb (fun c => negb (is_write c)) (calls s2) = false.
Proof.
  exists {| changed := true;
            result_state := Some (<["status" := "Created"]> ∅) |},
    {| world := ∅; calls := [GetSecret contoso "MySecret" ""] |}.
  eexists _, _.
  split; [by_vm|].
  split; [exact create_on_empty_vault|].
  split; reflexivity.
Qed.

Lemma second_run_unchanged_witness :
  exists r1 s1,
    run create_MySecret false ∅ = (Ret r1, s1)
    /\ exists r2,
         run create_MySecret false (world s1)
         = (Ret r2, {| world := world s1; calls := [read_call create_MySecret] |})
         /\ changed r2 = false.
Proof.
  eexists _, _. split; [exact create_on_empty_vault|].
  exact (second_run_unchanged mem_client id digits_parse create_MySecret false
           ∅ _ _ mem_store_laws create_on_empty_vault).
Defined.

(** C8, the claim as stated fails: presence absent, no secret of that name,
    and the run does not return [changed = False]: it ends with the parser's
    error on the expiry. *)
Lemma absent_on_missing_counterexample :
  state delete_with_bad_expiry = absent
  /\ (∅ : vault) !! (contoso, "MySecret") = None
  /\ (run delete_with_bad_expiry false ∅).1 = Raise (ValueError "next week").
Proof.
  split; [|split]; [reflexivity | reflexivity | by_vm].
Qed.

Lemma absent_on_missing_is_noop_witness :
  state delete_MySecret = absent
  /\ mem_get contoso "MySecret" "" ∅ = Raise (KeyVaultErrorException NOT_FOUND)
  /\ run delete_MySecret false ∅ =
     (Ret {| changed := false; result_state := Some ∅ |},
      {| world := ∅; calls := [read_call delete_MySecret] |}).
Proof.
  assert (Hget : mem_get contoso "MySecret" "" ∅
                 = Raise (KeyVaultErrorException NOT_FOUND)) by by_vm.
  split; [reflexivity|]. split; [exact Hget|].
  apply (proj2 (proj2 (absent_on_missing_is_noop mem_client id digits_parse
                         delete_MySecret false ∅ eq_refl Hget))).
  reflexivity.
Defined.

Lemma empty_value_skips_diff_witness :
  read_phase mem_client id blank_MySecret (start (with_MySecret "old"))
  = (Ret (Some (record_of id (bundle contoso "MySecret" "old")), false),
     {| world := with_MySecret "old"; calls := [read_call blank_MySecret] |})
  /\ (run blank_MySecret false (with_MySecret "old")).2
     = {| world := with_MySecret "old"; calls := [read_call blank_MySecret] |}.
Proof.
  assert (Hget : mem_get contoso "MySecret" "" (with_MySecret "old")
                 = Ret (Some (bundle contoso "MySecret" "old"))) by by_vm.
  destruct (empty_value_skips_diff mem_client id digits_parse blank_MySecret
              false (with_MySecret "old") (bundle contoso "MySecret" "old")
              eq_refl eq_refl Hget) as (H1 & H2 & _); [discriminate|].
  split; [exact H1|exact H2].
Defined.

(** * Runs of the resolver *)

(** C3, the claim as stated fails: auth_source is "msi", the managed
    identity fails and a CLI session is at hand, so a resolver that fell
    through to the CLI profile would hand back the client of that session;
    the resolver never calls the CLI profile and hands back the callback
    client. *)
Lemma msi_failure_counterexample :
  auth_source Host.msi_self = "msi"
  /\ Host.msi_down (kv_resource Host.msi_self) = None
  /\ (exists profile, Host.cli_profile = Some profile
        /\ Host.cli_login profile (Some "sub-1") (kv_resource Host.msi_self)
           = Some "cli-session")
  /\ cli_attempted (Host.resolve Host.msi_self).2 = false
  /\ (Host.resolve Host.msi_self).1 <> ClientOf "cli-session"
  /\ (Host.resolve Host.msi_self).2 =
     [Log "Get KeyVaultClient from MSI";
      CallMSI "https://vault.azure.net";
      Log "Get KeyVaultClient from service principal"].
Proof.
  split; [reflexivity|]. split; [reflexivity|].
  split; [exists tt; split; reflexivity|].
  split; [reflexivity|]. split; [discriminate|reflexivity].
Qed.

Lemma msi_failure_goes_to_callback_witness :
  auth_source Host.msi_self = "msi"
  /\ Host.msi_down (kv_resource Host.msi_self) = None
  /\ Host.resolve Host.msi_self =
     (ClientCallback (auth_callback Host.sp_token Host.msi_self),
      [Log "Get KeyVaultClient from MSI";
       CallMSI (kv_resource Host.msi_self);
       Log "Get KeyVaultClient from service principal"])
  /\ cli_attempted (Host.resolve Host.msi_self).2 = false.
Proof.
  split; [reflexivity|]. split; [reflexivity|].
  exact (msi_failure_goes_to_callback Host.msi_down Host.cli_profile
           Host.cli_login Host.sp_token Host.msi_self eq_refl eq_refl).
Defined.



(** * More runs on concrete data *)

Lemma read_error_propagates_witness :
  exec_module Faults.offline_client id digits_parse create_MySecret false (start ∅)
  = (Raise (SdkError "connection refused"),
     {| world := ∅; calls := [read_call create_MySecret] |}).
Proof.
  apply (read_error_propagates Faults.offline_client id digits_parse
           create_MySecret false ∅ (SdkError "connection refused") eq_refl).
  discriminate.
Defined.

Lemma create_after_missing_witness :
  run create_MySecret false ∅ =
  (Ret {| changed := true;
          result_state :=
            Some (<["status" := "Created"]>
                    (<["secret_id" := "https://contoso.vault.azure.net/secrets/MySecret"]> ∅)) |},
   {| world := with_MySecret "My_Pass_Sec";
      calls := [read_call create_MySecret; set_call create_MySecret DNone DNone] |}).
Proof.
  assert (Hget : mem_get contoso "MySecret" "" ∅
                 = Raise (KeyVaultErrorException NOT_FOUND)) by by_vm.
  assert (Hset : mem_set contoso "MySecret" (Some "My_Pass_Sec")
                   (tags create_MySecret) None
                   {| expires := DNone; not_before := DNone |} ∅
                 = (Ret (bundle contoso "MySecret" "My_Pass_Sec"),
                    with_MySecret "My_Pass_Sec")) by by_vm.
  exact (create_after_missing mem_client id digits_parse create_MySecret ∅
           NOT_FOUND DNone DNone (bundle contoso "MySecret" "My_Pass_Sec")
           (with_MySecret "My_Pass_Sec") eq_refl Hget eq_refl eq_refl Hset).
Defined.

Lemma update_on_other_value_witness :
  run create_MySecret false (with_MySecret "old") =
  (Ret {| changed := true;
          result_state :=
            Some (<["status" := "Created"]>
                    (<["secret_id" := "https://contoso.vault.azure.net/secrets/MySecret"]>
                       (<["secret_value" := "old"]> ∅))) |},
   {| world := with_MySecret "My_Pass_Sec";
      calls := [read_call create_MySecret; set_call create_MySecret DNone DNone] |}).
Proof.
  assert (Hget : mem_get contoso "MySecret" "" (with_MySecret "old")
                 = Ret (Some (bundle contoso "MySecret" "old"))) by by_vm.
  assert (Hset : mem_set contoso "MySecret" (Some "My_Pass_Sec")
                   (tags create_MySecret) None
                   {| expires := DNone; not_before := DNone |} (with_MySecret "old")
                 = (Ret (bundle contoso "MySecret" "My_Pass_Sec"),
                    with_MySecret "My_Pass_Sec")) by by_vm.
  assert (Hne : "My_Pass_Sec" <> "") by discriminate.
  assert (Hdiff : bundle_value (bundle contoso "MySecret" "old") <> "My_Pass_Sec")
    by discriminate.
  exact (update_on_other_value mem_client id digits_parse create_MySecret
           (with_MySecret "old") "My_Pass_Sec" (bundle contoso "MySecret" "old")
           DNone DNone (bundle contoso "MySecret" "My_Pass_Sec")
           (with_MySecret "My_Pass_Sec") eq_refl eq_refl Hne Hget Hdiff
           eq_refl eq_refl Hset).
Defined.

Lemma delete_on_found_witness :
  run delete_MySecret false (with_MySecret "My_Pass_Sec") =
  (Ret {| changed := true;
          result_state :=
            Some (<["status" := "Deleted"]>
                    (<["secret_id" := "https://contoso.vault.azure.net/secrets/MySecret"]>
                       (<["secret_value" := "My_Pass_Sec"]> ∅))) |},
   {| world := ∅;
      calls := [read_call delete_MySecret; delete_call delete_MySecret] |}).
Proof.
  assert (Hget : mem_get contoso "MySecret" "" (with_MySecret "My_Pass_Sec")
                 = Ret (Some (bundle contoso "MySecret" "My_Pass_Sec")))
    by by_vm.
  assert (Hdel : mem_delete contoso "MySecret" (with_MySecret "My_Pass_Sec")
                 = (Ret (bundle contoso "MySecret" "My_Pass_Sec"), ∅))
    by by_vm.
  exact (delete_on_found mem_client id digits_parse delete_MySecret
           (with_MySecret "My_Pass_Sec")
           (bundle contoso "MySecret" "My_Pass_Sec")
           (bundle contoso "MySecret" "My_Pass_Sec") ∅
           eq_refl Hget eq_refl Hdel).
Defined.

Lemma write_error_propagates_witness :
  exec_module Faults.read_only_client id digits_parse create_MySecret false (start ∅)
  = (Raise (KeyVaultErrorException FORBIDDEN),
     {| world := ∅;
        calls := [read_call create_MySecret;
                  set_call create_MySecret DNone DNone] |}).
Proof.
  assert (Hread : (read_phase Faults.read_only_client id create_MySecret
                     (start ∅)).1 = Ret (Some ∅, true)) by by_vm.
  exact (proj1 (write_error_propagates Faults.read_only_client id digits_parse
                  create_MySecret ∅ (Some ∅) DNone DNone
                  (KeyVaultErrorException FORBIDDEN) ∅ Hread eq_refl eq_refl)
           eq_refl eq_refl).
Defined.

Lemma check_mode_predicts_run_witness :
  exists r',
    run create_MySecret true ∅
    = (Ret r', {| world := ∅; calls := [read_call create_MySecret] |})
    /\ changed r' = true
    /\ (result_state r' ≫= (.!! "status")) = Some "Created".
Proof.
  destruct (check_mode_predicts_run mem_client id digits_parse create_MySecret
              ∅ _ _ create_on_empty_vault) as (r' & Hrun & Hchg & Hkeys).
  exists r'. split; [exact Hrun|]. split; [exact Hchg|].
  rewrite (Hkeys "status") by discriminate. reflexivity.
Defined.

Lemma falsy_bundle_runs_witness :
  exec_module Faults.falsy_client id digits_parse create_MySecret false (start ∅)
  = (Raise (TypeError "'NoneType' object is not subscriptable"),
     {| world := ∅; calls := [read_call create_MySecret] |})
  /\ exec_module Faults.falsy_client id digits_parse blank_MySecret false (start ∅)
     = (Ret {| changed := false; result_state := None |},
        {| world := ∅; calls := [read_call blank_MySecret] |})
  /\ exec_module Faults.falsy_client id digits_parse delete_MySecret true
       (start (with_MySecret "My_Pass_Sec"))
     = (Raise (TypeError "'NoneType' object does not support item assignment"),
        {| world := with_MySecret "My_Pass_Sec";
           calls := [read_call delete_MySecret] |})
  /\ exec_module Faults.falsy_client id digits_parse delete_MySecret false
       (start (with_MySecret "My_Pass_Sec"))
     = (Raise (TypeError "'NoneType' object does not support item assignment"),
        {| world := ∅;
           calls := [read_call delete_MySecret; delete_call delete_MySecret] |}).
Proof.
  assert (Hdel : mem_delete contoso "MySecret" (with_MySecret "My_Pass_Sec")
                 = (Ret (bundle contoso "MySecret" "My_Pass_Sec"), ∅))
    by by_vm.
  split.
  { exact (proj1 (falsy_bundle_runs Faults.falsy_client id digits_parse
                    create_MySecret ∅ eq_refl) eq_refl eq_refl false). }
  split.
  { exact (proj1 (proj2 (falsy_bundle_runs Faults.falsy_client id digits_parse
                           blank_MySecret ∅ eq_refl))
             eq_refl eq_refl eq_refl false). }
  split.
  { exact (proj1 (proj2 (proj2
             (falsy_bundle_runs Faults.falsy_client id digits_parse
                delete_MySecret (with_MySecret "My_Pass_Sec") eq_refl)))
             eq_refl eq_refl). }
  exact (proj2 (proj2 (proj2
           (falsy_bundle_runs Faults.falsy_client id digits_parse delete_MySecret
              (with_MySecret "My_Pass_Sec") eq_refl)))
           eq_refl eq_refl (bundle contoso "MySecret" "My_Pass_Sec") ∅ Hdel).
Defined.

Lemma status_tracks_changed_witness :
  (result_state
     {| changed := false; result_state := Some (∅ : dict) |} ≫= (.!! "status"))
  = None.
Proof.
  exact (status_tracks_changed mem_client id digits_parse delete_MySecret false
           ∅ _ _ delete_on_missing).
Defined.

Lemma same_value_is_noop_witness :
  run create_MySecret false (with_MySecret "My_Pass_Sec") =
  (Ret {| changed := false;
          result_state :=
            Some (record_of id (bundle contoso "MySecret" "My_Pass_Sec")) |},
   {| world := with_MySecret "My_Pass_Sec";
      calls := [read_call create_MySecret] |}).
Proof.
  assert (Hget : mem_get contoso "MySecret" "" (with_MySecret "My_Pass_Sec")
                 = Ret (Some (bundle contoso "MySecret" "My_Pass_Sec")))
    by by_vm.
  exact (same_value_is_noop mem_client id digits_parse create_MySecret false
           (with_MySecret "My_Pass_Sec")
           (bundle contoso "MySecret" "My_Pass_Sec")
           eq_refl Hget eq_refl eq_refl).
Defined.

Lemma changed_iff_written_witness :
  true = negb (forallb (fun c : call Z => negb (is_write c))
                 [GetSecret contoso "MySecret" "";
                  SetSecret contoso "MySecret" (Some "My_Pass_Sec")
                    (tags create_MySecret) None
                    {| expires := DNone; not_before := DNone |}]).
Proof.
  exact (proj1 (changed_iff_written mem_client id digits_parse create_MySecret
                  ∅ _ _ create_on_empty_vault)).
Defined.

Lemma msi_only_on_request_witness :
  auth_source Faults.cli_self <> "msi"
  /\ msi_attempted (Host.resolve Faults.cli_self).2 = false.
Proof.
  assert (Hne : auth_source Faults.cli_self <> "msi") by discriminate.
  split; [exact Hne|].
  exact (msi_only_on_request Host.msi_down Host.cli_profile Host.cli_login
           Host.sp_token Faults.cli_self Hne).
Defined.

Lemma credential_client_origin_witness :
  (Host.resolve Faults.cli_self).1 = ClientOf "cli-session".
Proof.
  apply (proj1 (credential_client_origin Host.msi_down Host.cli_profile
                  Host.cli_login Host.sp_token Faults.cli_self "cli-session")).
  right. split; [right; reflexivity|].
  exists tt, (Some "sub-1"). repeat split; reflexivity.
Defined.

Lemma cli_failure_goes_to_callback_witness :
  Host.resolve Faults.cli_self_no_subscription =
  (ClientCallback (auth_callback Host.sp_token Faults.cli_self_no_subscription),
   [CallCliProfile; Log "Get KeyVaultClient from service principal"]).
Proof.
  apply (proj1 (proj2 (cli_failure_goes_to_callback Host.msi_down
                         Host.cli_profile Host.cli_login Host.sp_token
                         Faults.cli_self_no_subscription (or_introl eq_refl)))
           tt eq_refl).
  reflexivity.
Defined.

Lemma callback_success_exactly_witness :
  auth_callback Host.sp_token Host.msi_self "server" "resource" "scope"
  = Ret ("Bearer", "app-id@common").
Proof.
  apply (callback_success_exactly Host.sp_token Host.msi_self).
  exists "app-id", "app-secret", None, {| token_type := "Bearer";
                                         access_token := "app-id@common" |}.
  repeat split; reflexivity.
Defined.

Lemma callback_missing_key_witness :
  auth_callback Host.sp_token Faults.cli_self_no_subscription
    "server" "resource" "scope"
  = Raise (KeyError "secret").
Proof.
  apply (proj1 (proj2 (callback_missing_key Host.sp_token
                         Faults.cli_self_no_subscription
                         "server" "resource" "scope")) "app-id");
    reflexivity.
Defined.

Lemma kv_url_after_first_dot_witness :
  kv_url Host.msi_self = "vault.azure.net"
  /\ kv_resource Host.msi_self = "https://vault.azure.net".
Proof.
  exact (proj1 (kv_url_after_first_dot Host.msi_self) "" "vault.azure.net"
           eq_refl eq_refl).
Defined.
